(** * operate.py: the logger, the process runner and the settings object

    A shallow embedding of [src/operate.py].  Python text is a list of code
    points, bytes are integers, the process-wide logger, the subprocesses
    started so far and the attribute dictionary of the [Operator] instance are
    fields of an explicit world, and every function of the source is a state
    transformer that either returns a value or raises.

    Three points of Python decide most of what follows and are modelled as
    the language has them:
    - a method declared with a plain [def] receives the instance only when it
      is looked up on an instance; looked up on the class it is an ordinary
      function ([call_get_logger]);
    - a function with a [yield] returns a generator, and its body runs only
      as far as the caller asks for elements ([shell], [gen_next]);
    - an attribute that was never assigned cannot be read ([getattr]).

    The host (file system, programs, [shlex], the YAML loader) is a parameter,
    [Platform]. *)

From Stdlib Require Import ZArith List String Ascii Bool Lia DecimalString.
From stdpp Require Import base option list gmap strings.

Open Scope string_scope.
Open Scope list_scope.
Open Scope Z_scope.

(** ** Text: [str], [bytes], UTF-8 and [rstrip] *)

Module Text.

(** A Python [str] is its sequence of code points; [bytes] is a sequence of
    integers in [0, 255]. *)
Abbreviation str := (list Z).
Abbreviation bytes := (list Z).

(** A source literal (ASCII) as a [str]. *)
Definition u (s : string) : str :=
  map (fun a => Z.of_nat (nat_of_ascii a)) (list_ascii_of_string s).

Definition between (lo hi b : Z) : bool := (lo <=? b) && (b <=? hi).

(** Continuation byte [10xxxxxx]. *)
Definition cont (b : Z) : bool := between 128 191 b.

(** [bytes.decode("utf-8")] with the default strict error handler: [None]
    stands for [UnicodeDecodeError].  Over-long forms, surrogates and code
    points above U+10FFFF are rejected as CPython does. *)
Fixpoint decode_utf8 (bs : bytes) : option str :=
  match bs with
  | [] => Some []
  | b0 :: r0 =>
    if between 0 127 b0 then cons b0 <$> decode_utf8 r0
    else
      match r0 with
      | [] => None
      | b1 :: r1 =>
        if between 194 223 b0 && cont b1
        then cons ((b0 - 192) * 64 + (b1 - 128)) <$> decode_utf8 r1
        else
          match r1 with
          | [] => None
          | b2 :: r2 =>
            if ((b0 =? 224) && between 160 191 b1
                || between 225 236 b0 && cont b1
                || (b0 =? 237) && between 128 159 b1
                || between 238 239 b0 && cont b1) && cont b2
            then cons ((b0 - 224) * 4096 + (b1 - 128) * 64 + (b2 - 128))
                   <$> decode_utf8 r2
            else
              match r2 with
              | [] => None
              | b3 :: r3 =>
                if ((b0 =? 240) && between 144 191 b1
                    || between 241 243 b0 && cont b1
                    || (b0 =? 244) && between 128 143 b1)
                   && cont b2 && cont b3
                then cons ((b0 - 240) * 262144 + (b1 - 128) * 4096
                           + (b2 - 128) * 64 + (b3 - 128))
                       <$> decode_utf8 r3
                else None
              end
          end
      end
  end.

(** [str.isspace] on one code point: the white space of the Unicode
    character database that [str.rstrip()] removes. *)
Definition isspace (c : Z) : bool :=
  between 9 13 c || between 28 32 c || (c =? 133) || (c =? 160)
  || (c =? 5760) || between 8192 8202 c || (c =? 8232) || (c =? 8233)
  || (c =? 8239) || (c =? 8287) || (c =? 12288).

Fixpoint lstrip (s : str) : str :=
  match s with
  | c :: s' => if isspace c then lstrip s' else s
  | [] => []
  end.

(** [s.rstrip()] *)
Definition rstrip (s : str) : str := rev (lstrip (rev s)).

(** [s.endswith(suffix)] *)
Definition endswith (s suffix : str) : bool :=
  bool_decide (drop (length s - length suffix)%nat s = suffix).

(** [str(n)] for an [int]. *)
Definition str_of_int (n : Z) : str := u (NilZero.string_of_int (Z.to_int n)).

(** [list(iter(f.readline, b''))]: the successive results of [readline] on a
    byte stream up to the end of file.  Every line keeps its newline; only the
    last one may lack it. *)
Fixpoint readlines (bs : bytes) : list bytes :=
  match bs with
  | [] => []
  | b :: bs' =>
    if b =? 10 then [b] :: readlines bs'
    else match readlines bs' with
         | [] => [[b]]
         | l :: ls => (b :: l) :: ls
         end
  end.

End Text.
Export Text.

(** ** Values, exceptions and the host *)

(** The values the module handles: the scalars and string lists a settings
    document holds, the logger object and the [Operator] instance. *)
Inductive value :=
| VNone
| VBool (b : bool)
| VInt (n : Z)
| VStr (s : str)
| VSeq (l : list str)
| VLogger
| VInstance.

Inductive exn :=
| TypeError (msg : string)
| AttributeError (attr : string)
| RuntimeError (msg : string)
| SystemExit (code : Z)
| UnicodeDecodeError
| ValueError (msg : string)
| OSError (msg : string)
| YAMLError (msg : string).

(** What a call does: it returns or it raises.  [SystemExit] is what the
    built-in [exit] raises; nothing in the module catches it, so it ends the
    process with that status. *)
Inductive outcome (A : Type) :=
| Return (a : A)
| Raise (e : exn).
Arguments Return {A} a.
Arguments Raise {A} e.

(** What the module asks of the host and of the libraries it imports, kept
    abstract: the file system, the programs a [Popen] can start (merged
    standard output and standard error as one byte stream, and the status
    [wait] returns), [shlex.split], [open] followed by [yaml.safe_load] (a
    mapping from keys to values), [sys.argv] and the [str()] of a list. *)
Record Platform := mkPlatform {
  dev_log : bool;
  islink : str -> bool;
  shlex_split : str -> outcome (list str);
  popen : list str -> outcome (bytes * Z);
  safe_load : str -> outcome (gmap str value);
  argv : list str;
  str_of_seq : list str -> str
}.

(** [str(v)], which is what ["{}".format(v)] inserts. *)
Definition py_str (P : Platform) (v : value) : str :=
  match v with
  | VNone => u "None"
  | VBool true => u "True"
  | VBool false => u "False"
  | VInt n => str_of_int n
  | VStr s => s
  | VSeq l => str_of_seq P l
  | VLogger => u "<Logger Operator (DEBUG)>"
  | VInstance => u "<operate.Operator object>"
  end.

(** Truth value of an object, as [if] tests it. *)
Definition truthy (v : value) : bool :=
  match v with
  | VNone => false
  | VBool b => b
  | VInt n => negb (n =? 0)
  | VStr s => negb (bool_decide (s = []))
  | VSeq l => negb (bool_decide (l = []))
  | VLogger | VInstance => true
  end.

(** An [int] (or a [bool], which is one) as a number; [None] for the objects
    that [min(3, v)] cannot compare with [3]. *)
Definition as_int (v : value) : option Z :=
  match v with
  | VInt n => Some n
  | VBool b => Some (if b then 1 else 0)
  | _ => None
  end.

(** The elements a [for] loop draws from an object. *)
Definition py_iter (v : value) : outcome (list str) :=
  match v with
  | VSeq l => Return l
  | VStr s => Return (map (fun c => [c]) s)
  | VNone => Raise (TypeError "'NoneType' object is not iterable")
  | _ => Raise (TypeError "object is not iterable")
  end.

(** ** The world *)

Module Logging.

Definition NOTSET : Z := 0.
Definition DEBUG : Z := 10.
Definition INFO : Z := 20.
Definition WARNING : Z := 30.
Definition ERROR : Z := 40.

Inductive sink := Console | Syslog.

#[global] Instance sink_eq_dec : EqDecision sink.
Proof. solve_decision. Defined.

(** A handler of the logger: where it writes and its own threshold. *)
Record Handler := mkHandler { h_sink : sink; h_level : Z }.

(** What is handed to a logging call: text, [sys.argv], or the parsed
    settings. *)
Inductive message :=
| MText (s : str)
| MArgv (l : list str)
| MSettings (d : gmap str value).

(** A record the logger accepted, with the sinks that wrote it. *)
Record LogRecord := mkRecord {
  r_level : Z;
  r_msg : message;
  r_sinks : list sink
}.

End Logging.
Export Logging.

(** The state the module works on: the handlers and level of
    [logging.getLogger('Operator')], the records logged so far (oldest first),
    the argument vectors of the subprocesses started so far (oldest first),
    and the attribute dictionary of the [Operator] instance. *)
Record World := mkWorld {
  handlers : list Handler;
  logger_level : Z;
  journal : list LogRecord;
  spawned : list (list str);
  self : gmap string value
}.

(** A fresh process: the logger has no handler and no level, nothing was
    logged or started, the instance has no attribute. *)
Definition fresh : World :=
  {| handlers := []; logger_level := NOTSET; journal := []; spawned := [];
     self := ∅ |}.

Definition with_handlers (hs : list Handler) (w : World) : World :=
  {| handlers := hs; logger_level := logger_level w; journal := journal w;
     spawned := spawned w; self := self w |}.
Definition with_logger_level (l : Z) (w : World) : World :=
  {| handlers := handlers w; logger_level := l; journal := journal w;
     spawned := spawned w; self := self w |}.
Definition with_journal (j : list LogRecord) (w : World) : World :=
  {| handlers := handlers w; logger_level := logger_level w; journal := j;
     spawned := spawned w; self := self w |}.
Definition with_spawned (s : list (list str)) (w : World) : World :=
  {| handlers := handlers w; logger_level := logger_level w;
     journal := journal w; spawned := s; self := self w |}.
Definition with_self (d : gmap string value) (w : World) : World :=
  {| handlers := handlers w; logger_level := logger_level w;
     journal := journal w; spawned := spawned w; self := d |}.

(** ** Computations: state passing with exceptions *)

Definition M (A : Type) : Type := World -> outcome A * World.

Definition ret {A} (a : A) : M A := fun w => (Return a, w).
Definition raise {A} (e : exn) : M A := fun w => (Raise e, w).
Definition bind {A B} (c : M A) (k : A -> M B) : M B :=
  fun w =>
    match c w with
    | (Return a, w') => k a w'
    | (Raise e, w') => (Raise e, w')
    end.
Definition lift {A} (o : outcome A) : M A := fun w => (o, w).
Definition modify (f : World -> World) : M unit := fun w => (Return tt, f w).
Definition gets {A} (f : World -> A) : M A := fun w => (Return (f w), w).

Notation "x <- c ;; k" := (bind c (fun x => k))
  (at level 100, c at next level, right associativity).
Notation "c ;;; k" := (bind c (fun _ => k))
  (at level 100, right associativity).

(** ** The logger *)

(** [Logger.getEffectiveLevel]: a logger without a level inherits the root's,
    which is WARNING unless the program configures it (it never does). *)
Definition effective_level (w : World) : Z :=
  if logger_level w =? NOTSET then WARNING else logger_level w.

(** The sinks whose handler writes a record of level [lvl]. *)
Definition listeners (lvl : Z) (w : World) : list sink :=
  map h_sink (List.filter (fun h => h_level h <=? lvl) (handlers w)).

(** [logger.log(lvl, m)]: dropped below the logger's level, otherwise written
    by every handler whose threshold it reaches. *)
Definition log (lvl : Z) (m : message) : M unit :=
  fun w =>
    if effective_level w <=? lvl
    then (Return tt,
          with_journal
            (journal w ++
             [{| r_level := lvl; r_msg := m; r_sinks := listeners lvl w |}])
            w)
    else (Return tt, w).

Definition debug (logger : value) (m : message) : M unit :=
  match logger with
  | VLogger => log DEBUG m
  | _ => raise (AttributeError "debug")
  end.
Definition warning (logger : value) (m : message) : M unit :=
  match logger with
  | VLogger => log WARNING m
  | _ => raise (AttributeError "warning")
  end.
Definition error (logger : value) (m : message) : M unit :=
  match logger with
  | VLogger => log ERROR m
  | _ => raise (AttributeError "error")
  end.

(** ** [Operator.get_logger] (lines 103-141) *)

Definition is_none (v : value) : bool :=
  match v with VNone => true | _ => false end.

(** [40 - (min(3, verbosity) * 10)] *)
Definition threshold_of (verbosity : value) : M Z :=
  match as_int verbosity with
  | Some v => ret (40 - Z.min 3 v * 10)
  | None => raise (TypeError "'<' not supported between these instances")
  end.

(** [logger.addHandler(h)] *)
Definition addHandler (h : Handler) : M unit :=
  modify (fun w => with_handlers (handlers w ++ [h]) w).

(** The body, once [self] and [verbosity] are bound. *)
Definition get_logger_body (P : Platform) (self_ verbosity : value) : M value :=
  modify (with_logger_level DEBUG) ;;;
  hs <- gets handlers ;;
  match hs with
  | [] =>
    lvl <- (if is_none verbosity then ret 40 else threshold_of verbosity) ;;
    addHandler (mkHandler Console lvl) ;;;
    (if dev_log P then addHandler (mkHandler Syslog INFO) else ret tt) ;;;
    ret VLogger
  | stderr :: others =>
    if is_none verbosity then ret VLogger
    else
      lvl <- threshold_of verbosity ;;
      modify (with_handlers (mkHandler (h_sink stderr) lvl :: others)) ;;;
      ret VLogger
  end.

(** How the arguments a call hands over are bound to the parameters
    [(self, verbosity=None)]: [args] are the positional ones, [kw] the keyword
    [verbosity=] when the call has it. *)
Definition bind_get_logger (args : list value) (kw : option value)
  : outcome (value * value) :=
  match args, kw with
  | [], _ =>
    Raise (TypeError "get_logger() missing 1 required positional argument: 'self'")
  | [s], None => Return (s, VNone)
  | [s], Some v => Return (s, v)
  | [s; v], None => Return (s, v)
  | [s; v], Some _ =>
    Raise (TypeError "get_logger() got multiple values for argument 'verbosity'")
  | _, _ =>
    Raise (TypeError "get_logger() takes from 1 to 2 positional arguments")
  end.

Definition get_logger (P : Platform) (args : list value) (kw : option value)
  : M value :=
  sv <- lift (bind_get_logger args kw) ;;
  get_logger_body P (fst sv) (snd sv).

(** [get_logger] is declared with a plain [def], without [@classmethod] or
    [@staticmethod].  Looked up on the instance it is a bound method and the
    instance comes first among the positional arguments; looked up on the
    class it is the function itself and receives the arguments of the call
    and nothing more. *)
Inductive receiver := OnInstance | OnClass.

Definition call_get_logger (P : Platform) (r : receiver)
  (args : list value) (kw : option value) : M value :=
  match r with
  | OnInstance => get_logger P (VInstance :: args) kw
  | OnClass => get_logger P args kw
  end.

(** ** [main] (lines 268-277): [verbose] is the number of [-v] flags *)

Definition main (P : Platform) (verbose : Z) : M unit :=
  logger <- call_get_logger P OnClass [VInt verbose] None ;;
  debug logger (MArgv (argv P)) ;;;
  debug logger (MText (u "verbose: " ++ str_of_int verbose)).

(** ** [Operator._utf8ify] and [Operator.shell] (lines 164-193) *)

(** [line_bytes.decode("utf-8").rstrip()] *)
Definition _utf8ify (line_bytes : bytes) : outcome str :=
  match decode_utf8 line_bytes with
  | Some s => Return (rstrip s)
  | None => Raise UnicodeDecodeError
  end.

(** [shell] has a [yield] in its body, so a call runs none of it: it returns a
    generator, and the body advances only when the caller asks for the next
    element.  A generator is [Created] until the first request, [Reading]
    once the process is started (the logger, the lines still to be read from
    the pipe, and the status [wait] will return), and [Finished] after the
    body has returned or raised. *)
Inductive shell_pc :=
| Created
| Reading (logger : value) (pending : list bytes) (code : Z)
| Finished.

Record generator := mkGen {
  g_cmd : str;
  g_fail : bool;
  g_pc : shell_pc
}.

Definition shell (cmd : str) (fail : bool) : generator := mkGen cmd fail Created.

Definition at_pc (g : generator) (pc : shell_pc) : generator :=
  mkGen (g_cmd g) (g_fail g) pc.

(** Lines 178-182: obtain the logger through the class, log the command,
    split it and start the process. *)
Definition shell_start (P : Platform) (g : generator)
  : M (value * list bytes * Z) :=
  logger <- call_get_logger P OnClass [] None ;;
  debug logger (MText (u "Running: " ++ g_cmd g)) ;;;
  args <- lift (shlex_split P (g_cmd g)) ;;
  modify (fun w => with_spawned (spawned w ++ [args]) w) ;;;
  proc <- lift (popen P args) ;;
  ret (logger, readlines (fst proc), snd proc).

(** Lines 184-185: decode the line that was read and log it; the [yield] of
    line 186 follows. *)
Definition shell_line (logger : value) (line_bytes : bytes) : M str :=
  line <- lift (_utf8ify line_bytes) ;;
  debug logger (MText (u "Line:    " ++ line)) ;;;
  ret line.

(** Lines 188-193, after the last line: the status of the process decides
    between nothing, an error and [exit], and a warning. *)
Definition shell_finish (g : generator) (logger : value) (code : Z) : M unit :=
  if g_fail g && negb (code =? 0) then
    error logger (MText (u "Command errored: " ++ g_cmd g)) ;;;
    raise (SystemExit code)
  else if negb (code =? 0) then
    warning logger
      (MText (u "Command returned " ++ str_of_int code ++ u ": " ++ g_cmd g))
  else ret tt.

(** What one request gives: the next line, or the end of the sequence. *)
Inductive step := Yield (line : str) | StopIteration.

(** The body from a point where the process runs, up to the next [yield] or
    to the end. *)
Definition shell_resume (g : generator) (logger : value)
  (pending : list bytes) (code : Z) (w : World)
  : outcome step * generator * World :=
  match pending with
  | line_bytes :: rest =>
    match shell_line logger line_bytes w with
    | (Return line, w') => (Return (Yield line), at_pc g (Reading logger rest code), w')
    | (Raise e, w') => (Raise e, at_pc g Finished, w')
    end
  | [] =>
    match shell_finish g logger code w with
    | (Return _, w') => (Return StopIteration, at_pc g Finished, w')
    | (Raise e, w') => (Raise e, at_pc g Finished, w')
    end
  end.

(** [next(g)]: the outcome, the generator afterwards and the world
    afterwards. *)
Definition gen_next (P : Platform) (g : generator) (w : World)
  : outcome step * generator * World :=
  match g_pc g with
  | Created =>
    match shell_start P g w with
    | (Return (logger, pending, code), w') => shell_resume g logger pending code w'
    | (Raise e, w') => (Raise e, at_pc g Finished, w')
    end
  | Reading logger pending code => shell_resume g logger pending code w
  | Finished => (Return StopIteration, g, w)
  end.

(** A [for line in g:] loop whose body may [return]: [body] takes the local
    state and the line and gives the new local state ([inl]) or the value
    returned ([inr]).  When the body returns, the generator is abandoned where
    it stands and the rest of [shell] does not run. *)
Fixpoint for_pending {S R : Type} (g : generator) (logger : value) (code : Z)
  (body : S -> str -> M (S + R)) (s : S) (pending : list bytes) : M (S + R) :=
  match pending with
  | line_bytes :: rest =>
    line <- shell_line logger line_bytes ;;
    r <- body s line ;;
    match r with
    | inl s' => for_pending g logger code body s' rest
    | inr x => ret (inr x)
    end
  | [] => shell_finish g logger code ;;; ret (inl s)
  end.

Definition for_lines {S R : Type} (P : Platform) (g : generator)
  (body : S -> str -> M (S + R)) (s : S) : M (S + R) :=
  match g_pc g with
  | Created =>
    proc <- shell_start P g ;;
    for_pending g (fst (fst proc)) (snd proc) body s (snd (fst proc))
  | Reading logger pending code => for_pending g logger code body s pending
  | Finished => ret (inl s)
  end.

(** [list(g)] *)
Definition list_of (P : Platform) (g : generator) : M (list str) :=
  r <- for_lines (R := Empty_set) P g (fun acc line => ret (inl (acc ++ [line]))) [] ;;
  match r with
  | inl acc => ret acc
  | inr x => match x with end
  end.

(** [list(itertools.islice(g, n))]: at most [n] requests, stopping at the
    first that does not give a line; the lines, the generator and the world
    afterwards. *)
Fixpoint take_lines (n : nat) (P : Platform) (g : generator) (w : World)
  : list str * generator * World :=
  match n with
  | O => ([], g, w)
  | S n' =>
    match gen_next P g w with
    | (Return (Yield line), g', w') =>
      let '(lines, g'', w'') := take_lines n' P g' w' in
      (line :: lines, g'', w'')
    | (_, g', w') => ([], g', w')
    end
  end.

(** ** [Operator._determine_runtime] (lines 210-222) *)

Definition which_line (P : Platform) (suffix : str) (name : str)
  (_ : unit) (line : str) : M (unit + str) :=
  if endswith line suffix && negb (islink P line)
  then ret (inr name) else ret (inl tt).

Definition _determine_runtime (P : Platform) : M str :=
  r <- for_lines P (shell (u "which docker") false)
         (which_line P (u "/docker") (u "docker")) tt ;;
  match r with
  | inr name => ret name
  | inl _ =>
    r <- for_lines P (shell (u "which podman") false)
           (which_line P (u "/podman") (u "podman")) tt ;;
    match r with
    | inr name => ret name
    | inl _ => raise (RuntimeError "Unable to identify a container runtime!")
    end
  end.

(** ** The [Operator] instance *)

(** [self.name]: what the instance dictionary holds, [AttributeError] when the
    name was never assigned.  (The attributes read below are not defined on
    the class, so the instance dictionary decides.) *)
Definition getattr (name : string) : M value :=
  fun w =>
    match self w !! name with
    | Some v => (Return v, w)
    | None => (Raise (AttributeError name), w)
    end.

(** [self.name = v] *)
Definition setattr (name : string) (v : value) : M unit :=
  modify (fun w => with_self (<[name := v]> (self w)) w).

(** The arguments of [__init__] (lines 72-76). *)
Record init_args := mkArgs {
  a_image : value;
  a_version : value;
  a_channels : value;
  a_kinds : value;
  a_default_sample : value;
  a_domain : value;
  a_group : value;
  a_api_version : value;
  a_initialized : value;
  a_verbosity : value
}.

(** The defaults of the signature. *)
Definition init_defaults : init_args :=
  {| a_image := VNone; a_version := VNone; a_channels := VSeq [];
     a_kinds := VSeq []; a_default_sample := VNone; a_domain := VNone;
     a_group := VNone; a_api_version := VNone; a_initialized := VBool false;
     a_verbosity := VNone |}.

(** [Operator.__init__] (lines 77-86) *)
Definition __init__ (P : Platform) (a : init_args) : M unit :=
  setattr "image" (a_image a) ;;;
  setattr "version" (a_version a) ;;;
  setattr "channels" (a_channels a) ;;;
  setattr "kinds" (a_kinds a) ;;;
  setattr "default_sample" (a_default_sample a) ;;;
  setattr "domain" (a_domain a) ;;;
  setattr "group" (a_group a) ;;;
  setattr "api_version" (a_api_version a) ;;;
  runtime <- _determine_runtime P ;;
  setattr "runtime" (VStr runtime) ;;;
  logger <- call_get_logger P OnInstance [] (Some (a_verbosity a)) ;;
  setattr "logger" logger.

(** [Operator(...)]: a new instance with an empty dictionary, initialised. *)
Definition new (P : Platform) (a : init_args) : M value :=
  modify (with_self ∅) ;;;
  __init__ P a ;;;
  ret VInstance.

(** [Operator.__repr__] (lines 88-101): the arguments of [format] are
    evaluated from left to right. *)
Definition __repr__ (P : Platform) : M str :=
  image <- getattr "image" ;;
  version <- getattr "version" ;;
  channels <- getattr "channels" ;;
  kinds <- getattr "kinds" ;;
  sample <- getattr "sample" ;;
  domain <- getattr "domain" ;;
  group <- getattr "group" ;;
  api_version <- getattr "api_version" ;;
  initialized <- getattr "initialized" ;;
  ret (u "OperatorSettings(image=" ++ py_str P image
       ++ u ", version=" ++ py_str P version
       ++ u ", channels=" ++ py_str P channels
       ++ u ", kinds=" ++ py_str P kinds
       ++ u ", default_sample=" ++ py_str P sample
       ++ u ", domain=" ++ py_str P domain
       ++ u ", group=" ++ py_str P group
       ++ u ", api_version=" ++ py_str P api_version
       ++ u " initialized=" ++ py_str P initialized ++ u ")").

(** ** [Operator.load] (lines 143-162) *)

(** [settings.get(key)] *)
Definition dict_get (settings : gmap str value) (key : str) : value :=
  default VNone (settings !! key).

(** The keyword arguments [load] hands to the class (lines 155-162); the
    parameters it leaves out keep their defaults. *)
Definition load_args (settings : gmap str value) : init_args :=
  {| a_image := dict_get settings (u "image");
     a_version := dict_get settings (u "version");
     a_channels := dict_get settings (u "channels");
     a_kinds := dict_get settings (u "kinds");
     a_default_sample := dict_get settings (u "default-sample");
     a_domain := dict_get settings (u "domain");
     a_group := dict_get settings (u "group");
     a_api_version := dict_get settings (u "api-version");
     a_initialized := a_initialized init_defaults;
     a_verbosity := a_verbosity init_defaults |}.

Definition load (P : Platform) (file : str) : M value :=
  logger <- call_get_logger P OnClass [] None ;;
  settings <- lift (safe_load P file) ;;
  debug logger (MText (u "Recovered settings:")) ;;;
  debug logger (MSettings settings) ;;;
  new P (load_args settings).

(** ** [Operator.initialize_operator] (lines 224-243) *)

Definition init_command (P : Platform) (domain : value) : str :=
  u "operator-sdk init --plugins=ansible --domain=" ++ py_str P domain.

Definition create_api_command (P : Platform) (group version : value)
  (kind : str) : str :=
  u "operator-sdk create api --group=" ++ py_str P group
  ++ u " --version=" ++ py_str P version ++ u " --kind=" ++ kind.

(** The list comprehension of lines 237-241: one call of [shell] for each
    kind, each giving a generator. *)
Fixpoint create_api_generators (P : Platform) (kinds : list str)
  : M (list generator) :=
  match kinds with
  | [] => ret []
  | kind :: rest =>
    group <- getattr "group" ;;
    version <- getattr "version" ;;
    gs <- create_api_generators P rest ;;
    ret (shell (create_api_command P group version kind) true :: gs)
  end.

(** Lines 229-241: the generators the calls of [shell] give.  [None] when
    [initialized] is true and the method returns at once. *)
Definition initialize_operator_generators (P : Platform)
  : M (option (list generator)) :=
  initialized <- getattr "initialized" ;;
  if truthy initialized then ret None
  else
    domain <- getattr "domain" ;;
    let g0 := shell (init_command P domain) true in
    kinds <- getattr "kinds" ;;
    ks <- lift (py_iter kinds) ;;
    gs <- create_api_generators P ks ;;
    ret (Some (g0 :: gs)).

(** Both results are bound to [_] and dropped: no generator is ever asked for
    an element. *)
Definition initialize_operator (P : Platform) : M unit :=
  r <- initialize_operator_generators P ;;
  match r with
  | None => ret tt
  | Some _ => setattr "initialized" (VBool true)
  end.

(** ** A concrete host, for evaluating the definitions *)

Module Demo.

(** Splits at single spaces: what [shlex.split] gives on a command without
    quotes, escapes or repeated blanks. *)
Fixpoint words (s : str) : list str :=
  match s with
  | [] => [[]]
  | c :: s' =>
    if c =? 32 then [] :: words s'
    else match words s' with
         | [] => [[c]]
         | w :: ws => (c :: w) :: ws
         end
  end.

Definition nl : str := [10].

(** A host with [/dev/log], where [docker] is a symbolic link and [podman] a
    regular file, [abc] prints three lines and succeeds, and [seven] prints
    two lines and exits with status 7. *)
Definition host : Platform :=
  {| dev_log := true;
     islink := fun p => bool_decide (p = u "/usr/bin/docker");
     shlex_split := fun s => Return (words s);
     popen := fun args =>
       if bool_decide (args = [u "which"; u "docker"])
       then Return (u "/usr/bin/docker" ++ nl, 0)
       else if bool_decide (args = [u "which"; u "podman"])
       then Return (u "/usr/bin/podman" ++ nl, 0)
       else if bool_decide (args = [u "abc"])
       then Return (u "a" ++ nl ++ u "b" ++ nl ++ u "c" ++ nl, 0)
       else if bool_decide (args = [u "seven"])
       then Return (u "x" ++ nl ++ u "y" ++ nl, 7)
       else Raise (OSError "No such file or directory");
     safe_load := fun file =>
       if bool_decide (file = u "operate.yml")
       then Return {[ u "image" := VStr (u "foo") ]}
       else Raise (OSError "No such file or directory");
     argv := [u "operate.py"; u "-v"];
     str_of_seq := fun l => u "[...]" |}.

(** The same host without [/dev/log]. *)
Definition bare : Platform :=
  {| dev_log := false; islink := islink host; shlex_split := shlex_split host;
     popen := popen host; safe_load := safe_load host; argv := argv host;
     str_of_seq := str_of_seq host |}.

End Demo.

(** ** Observations on a world *)

(** The threshold of the first handler that writes to [s], if there is one. *)
Definition threshold (s : sink) (w : World) : option Z :=
  h_level <$> List.find (fun h => bool_decide (h_sink h = s)) (handlers w).

(** The sinks installed, in order. *)
Definition sinks (w : World) : list sink := map h_sink (handlers w).

(** A call of [get_logger]: the positional arguments the function receives
    and the keyword [verbosity=], if the call has one. *)
Definition call : Type := list value * option value.

(** The world after a call, and after a sequence of calls; a call that raises
    leaves the world as the exception found it. *)
Definition run_call (P : Platform) (c : call) (w : World) : World :=
  snd (get_logger P (fst c) (snd c) w).

Definition run_calls (P : Platform) (cs : list call) (w : World) : World :=
  fold_left (fun w c => run_call P c w) cs w.

(** The handlers a first call installs. *)
Definition installed (P : Platform) (lvl : Z) : list Handler :=
  mkHandler Console lvl :: (if dev_log P then [mkHandler Syslog INFO] else []).

(** The exception a call of [get_logger] on the class without arguments
    raises: nothing is bound to [self]. *)
Definition missing_self : exn :=
  TypeError "get_logger() missing 1 required positional argument: 'self'".

(** The record line 185 logs for a line. *)
Definition line_record (w : World) (line : str) : LogRecord :=
  {| r_level := DEBUG; r_msg := MText (u "Line:    " ++ line);
     r_sinks := listeners DEBUG w |}.

(** The world once [lines] have been logged by line 185, in order. *)
Definition log_lines (lines : list str) (w : World) : World :=
  with_journal (journal w ++ map (line_record w) lines) w.

(** The pending lines all decode, to [lines]. *)
Definition decoded (pending : list bytes) (lines : list str) : Prop :=
  Forall2 (fun line_bytes line => _utf8ify line_bytes = Return line)
    pending lines.

(** An instance whose attributes were assigned by hand, [initialized]
    included: a project with one kind, not yet initialised. *)
Definition memcached_project : World :=
  with_self
    (<["initialized" := VBool false]>
     (<["kinds" := VSeq [u "Memcached"]]>
      (<["version" := VStr (u "0.0.1")]>
       (<["group" := VStr (u "cache")]>
        (<["domain" := VStr (u "example.com")]> ∅)))))
    fresh.

(** ** [Operator._build_operator] (lines 245-250) *)

Definition info (logger : value) (m : message) : M unit :=
  match logger with
  | VLogger => log INFO m
  | _ => raise (AttributeError "info")
  end.

(** The callee [self.logger.info] is evaluated before its argument, so
    [self.logger] is read before [self.image]. *)
Definition _build_operator (P : Platform) (tag : value) : M unit :=
  build_tag <- (if is_none tag then getattr "version" else ret tag) ;;
  logger <- getattr "logger" ;;
  image <- getattr "image" ;;
  info logger
    (MText (u "Building " ++ py_str P image ++ u ":" ++ py_str P build_tag)).

(** ** [Operator.osdk_config] and [Operator._install_operator_sdk]
    (lines 64-70 and 195-208) *)

(** [s.startswith(prefix)] *)
Definition startswith (s prefix : str) : bool :=
  bool_decide (take (length prefix) s = prefix).

Definition sep : Z := 47.

(** [os.path.join(a, b)] of [posixpath]: an absolute [b] replaces [a];
    otherwise [b] is appended, after a separator unless [a] is empty or ends
    with one. *)
Definition path_join (a b : str) : str :=
  if startswith b [sep] then b
  else if bool_decide (a = []) || endswith a [sep] then a ++ b
  else a ++ [sep] ++ b.

Fixpoint drop_to_sep (s : str) : str :=
  match s with
  | c :: s' => if c =? sep then s else drop_to_sep s'
  | [] => []
  end.

Fixpoint drop_seps (s : str) : str :=
  match s with
  | c :: s' => if c =? sep then drop_seps s' else s
  | [] => []
  end.

(** [os.path.dirname(p)] of [posixpath]: [p] up to its last separator, the
    trailing separators removed unless nothing else is left. *)
Definition dirname (p : str) : str :=
  let head := rev (drop_to_sep (rev p)) in
  if negb (bool_decide (head = [])) && negb (forallb (fun c => c =? sep) head)
  then rev (drop_seps (rev head))
  else head.

(** The directory of [$HOME] with its separator: [home] itself when it is
    empty or ends with a separator. *)
Definition home_prefix (home : str) : str :=
  if bool_decide (home = []) || endswith home [sep] then home
  else home ++ [sep].

(** [osdk_config["osdk_path"]], for the value [home] of [$HOME]. *)
Definition osdk_path (home : str) : str :=
  path_join (path_join (path_join home (u ".local")) (u "bin"))
    (u "operator-sdk").

(** [operator_sdk_update] belongs to another package and is a parameter: it
    takes [directory], [path] and [version] and gives the version
    installed. *)
Definition _install_operator_sdk (P : Platform) (home : str)
  (operator_sdk_update : str -> str -> value -> M value) (version : value)
  : M unit :=
  installed_version <-
    operator_sdk_update (dirname (osdk_path home)) (dirname (osdk_path home))
      version ;;
  logger <- getattr "logger" ;;
  info logger
    (MText (u "Operator SDK version " ++ py_str P installed_version
            ++ u " installed")).

(** ** Further observations *)

(** The names [__repr__] reads, in the order it reads them. *)
Definition repr_reads : list string :=
  ["image"; "version"; "channels"; "kinds"; "sample"; "domain"; "group";
   "api_version"; "initialized"].

Definition has_attr (w : World) (name : string) : bool :=
  match self w !! name with Some _ => true | None => false end.

(** The keys of a settings document that [load] reads. *)
Definition recognised_keys : list str :=
  [u "image"; u "version"; u "channels"; u "kinds"; u "default-sample";
   u "domain"; u "group"; u "api-version"].


(** The test of lines 217 and 220 on a decoded line. *)
Definition accepts (P : Platform) (suffix line : str) : bool :=
  endswith line suffix && negb (islink P line).

(** A line that ends the loop of [_determine_runtime]: one that does not
    decode, or one that decodes to a line the test accepts. *)
Definition decisive (P : Platform) (suffix : str) (line_bytes : bytes) : bool :=
  match _utf8ify line_bytes with
  | Return line => accepts P suffix line
  | Raise _ => true
  end.

(** A byte that occurs in no UTF-8 text. *)
Definition never_in_utf8 (b : Z) : Prop :=
  b < 0 \/ b = 192 \/ b = 193 \/ 245 <= b.

(** A Unicode scalar value: a code point that is not a surrogate. *)
Definition scalar_value (c : Z) : Prop :=
  0 <= c <= 1114111 /\ ~ (55296 <= c <= 57343).

(** * Properties *)

(** ** Text *)

Example decode_ascii : decode_utf8 [97; 10] = Some (u "a" ++ [10]).
Proof. reflexivity. Qed.
Example decode_euro : decode_utf8 [226; 130; 172] = Some [8364].
Proof. reflexivity. Qed.
Example decode_overlong : decode_utf8 [192; 128] = None.
Proof. reflexivity. Qed.
Example rstrip_newline : rstrip (u "a b " ++ [13; 10]) = u "a b".
Proof. reflexivity. Qed.
Example str_of_int_neg : str_of_int (-15) = u "-15".
Proof. reflexivity. Qed.
Example endswith_docker : endswith (u "/usr/bin/docker") (u "/docker") = true.
Proof. reflexivity. Qed.
Example readlines_two : readlines [97; 10; 10; 98] = [[97; 10]; [10]; [98]].
Proof. reflexivity. Qed.

(** ** The logger *)

Section Logger.

Variable P : Platform.

Lemma get_logger_body_first self_ verbosity w :
  handlers w = [] ->
  get_logger_body P self_ verbosity w =
    match (if is_none verbosity then Some 40
           else (fun v => 40 - Z.min 3 v * 10) <$> as_int verbosity) with
    | Some lvl =>
      (Return VLogger, with_handlers (installed P lvl) (with_logger_level DEBUG w))
    | None =>
      (Raise (TypeError "'<' not supported between these instances"),
       with_logger_level DEBUG w)
    end.
Proof.
  intros Hw. destruct w as [hs lv j sp d]. simpl in Hw. subst hs.
  unfold get_logger_body, installed, bind, modify, gets, addHandler, threshold_of.
  simpl. destruct (is_none verbosity).
  - simpl. destruct (dev_log P); reflexivity.
  - destruct (as_int verbosity) as [v|]; simpl; [|reflexivity].
    destruct (dev_log P); reflexivity.
Qed.

Lemma get_logger_body_later self_ verbosity h hs w :
  handlers w = h :: hs ->
  get_logger_body P self_ verbosity w =
    if is_none verbosity then (Return VLogger, with_logger_level DEBUG w)
    else
      match as_int verbosity with
      | Some v =>
        (Return VLogger,
         with_handlers (mkHandler (h_sink h) (40 - Z.min 3 v * 10) :: hs)
           (with_logger_level DEBUG w))
      | None =>
        (Raise (TypeError "'<' not supported between these instances"),
         with_logger_level DEBUG w)
      end.
Proof.
  intros Hw. destruct w as [hs' lv j sp d]. simpl in Hw. subst hs'.
  unfold get_logger_body, bind, modify, gets, threshold_of. simpl.
  destruct (is_none verbosity); [reflexivity|].
  destruct (as_int verbosity); reflexivity.
Qed.

(** A call either fails to bind its arguments and changes nothing, or runs
    the body on the bound pair. *)
Lemma get_logger_cases args kw w :
  (exists m, get_logger P args kw w = (Raise (TypeError m), w))
  \/ (exists s v, get_logger P args kw w = get_logger_body P s v w).
Proof.
  unfold get_logger, bind, lift.
  destruct args as [|s [|v [|x args]]], kw as [k|]; simpl; eauto.
Qed.

(** Once the logger has a handler, no call adds or removes one, and only the
    threshold of the first can change. *)
Lemma get_logger_keeps_sinks (c : call) (w : World) :
  handlers w <> [] ->
  sinks (run_call P c w) = sinks w
  /\ tail (handlers (run_call P c w)) = tail (handlers w).
Proof.
  intros Hne. unfold run_call.
  destruct (get_logger_cases (fst c) (snd c) w) as [[m ->]|[s [v ->]]];
    [done|].
  destruct (handlers w) as [|h hs] eqn:Hw; [done|].
  rewrite (get_logger_body_later s v h hs w Hw). unfold sinks.
  destruct (is_none v); simpl; [by rewrite Hw|].
  destruct (as_int v); simpl; by rewrite ?Hw.
Qed.

(** A call on a logger without handlers leaves it so (when it raises) or
    installs the console sink and, if [/dev/log] exists, the system-log
    sink. *)
Lemma get_logger_installs (c : call) (w : World) :
  handlers w = [] ->
  handlers (run_call P c w) = []
  \/ exists lvl, handlers (run_call P c w) = installed P lvl.
Proof.
  intros Hw. unfold run_call.
  destruct (get_logger_cases (fst c) (snd c) w) as [[m ->]|[s [v ->]]];
    [by left|].
  rewrite (get_logger_body_first s v w Hw).
  destruct (if is_none v then _ else _); simpl; eauto.
Qed.

Lemma run_calls_keep_sinks (cs : list call) (w : World) :
  handlers w <> [] ->
  sinks (run_calls P cs w) = sinks w
  /\ tail (handlers (run_calls P cs w)) = tail (handlers w).
Proof.
  revert w. induction cs as [|c cs IH]; intros w Hne; [done|].
  simpl. destruct (get_logger_keeps_sinks c w Hne) as [Hs Ht].
  assert (handlers (run_call P c w) <> []) as Hne'.
  { intros E. unfold sinks in Hs. rewrite E in Hs.
    destruct (handlers w); [done|discriminate]. }
  destruct (IH _ Hne') as [Hs' Ht']. split; congruence.
Qed.

(** Whatever the calls, the logger never has more than two handlers. *)
Lemma run_calls_at_most_two (cs : list call) (w : World) :
  handlers w = [] -> (length (handlers (run_calls P cs w)) <= 2)%nat.
Proof.
  revert w. induction cs as [|c cs IH]; intros w Hw; simpl.
  - rewrite Hw. simpl. lia.
  - destruct (get_logger_installs c w Hw) as [E|[lvl E]]; [by apply IH|].
    assert (handlers (run_call P c w) <> []) as Hne by (by rewrite E).
    destruct (run_calls_keep_sinks cs _ Hne) as [Hs _].
    rewrite <- (length_map h_sink). fold (sinks (run_calls P cs (run_call P c w))).
    rewrite Hs. unfold sinks. rewrite length_map, E. unfold installed.
    destruct (dev_log P); simpl; lia.
Qed.

Lemma threshold_syslog_tail (w : World) h hs :
  handlers w = h :: hs -> h_sink h = Console ->
  threshold Syslog w =
    h_level <$> List.find (fun h => bool_decide (h_sink h = Syslog)) hs.
Proof.
  intros Hw Hc. unfold threshold. rewrite Hw. simpl. by rewrite Hc.
Qed.

End Logger.

(** C5. On a logger that has no handler yet, a call of [get_logger] made on
    the instance with verbosity [v >= 0] (by keyword, as [__init__] does, or
    by position) gives the console sink the threshold [40 - min(3, v) * 10],
    which is 40, 30, 20 for [v] = 0, 1, 2 and 10 from 3 on; a first call
    without verbosity gives it 40. *)
Theorem get_logger_first_call_threshold (P : Platform) (v : Z) (w : World) :
  handlers w = [] ->
  0 <= v ->
  threshold Console (snd (call_get_logger P OnInstance [] (Some (VInt v)) w))
    = Some (40 - Z.min 3 v * 10)
  /\ threshold Console (snd (call_get_logger P OnInstance [VInt v] None w))
    = Some (40 - Z.min 3 v * 10)
  /\ threshold Console (snd (call_get_logger P OnInstance [] None w)) = Some 40
  /\ 40 - Z.min 3 v * 10
     = (if v =? 0 then 40 else if v =? 1 then 30 else if v =? 2 then 20 else 10).
Proof.
  intros Hw Hv.
  assert (forall verbosity lvl,
    (if is_none verbosity then Some 40
     else (fun v => 40 - Z.min 3 v * 10) <$> as_int verbosity) = Some lvl ->
    threshold Console (snd (get_logger_body P VInstance verbosity w)) = Some lvl)
    as Hbody.
  { intros verbosity lvl E. rewrite (get_logger_body_first P _ _ _ Hw), E.
    reflexivity. }
  repeat split.
  - apply (Hbody (VInt v)). reflexivity.
  - apply (Hbody (VInt v)). reflexivity.
  - apply (Hbody VNone). reflexivity.
  - destruct (Z.eqb_spec v 0); [subst; reflexivity|].
    destruct (Z.eqb_spec v 1); [subst; reflexivity|].
    destruct (Z.eqb_spec v 2); [subst; reflexivity|].
    rewrite Z.min_l by lia. reflexivity.
Qed.

Lemma get_logger_first_call_threshold_witness :
  handlers fresh = [] /\ 0 <= 2
  /\ threshold Console
       (snd (call_get_logger Demo.host OnInstance [] (Some (VInt 2)) fresh))
     = Some 20.
Proof.
  split; [reflexivity|]. split; [discriminate|].
  refine (proj1 (get_logger_first_call_threshold Demo.host 2 fresh eq_refl _)).
  discriminate.
Defined.

(** C6. After the call that provisions the logger, no sequence of further
    calls, with or without verbosity and however their arguments are passed,
    adds a sink: the sinks stay the console sink followed by the system-log
    sink when [/dev/log] exists, at most two.  The handlers after the first
    are never touched, so the system-log threshold stays INFO; a later call
    with verbosity [v] sets the threshold of the console sink to
    [40 - min(3, v) * 10] and changes nothing else. *)
Theorem get_logger_never_adds_a_sink (P : Platform) (c0 : call)
  (cs : list call) (w : World) :
  handlers w = [] ->
  fst (get_logger P (fst c0) (snd c0) w) = Return VLogger ->
  let w1 := run_call P c0 w in
  let w2 := run_calls P cs w1 in
  sinks w1 = Console :: (if dev_log P then [Syslog] else [])
  /\ sinks w2 = sinks w1
  /\ (length (handlers w2) <= 2)%nat
  /\ tail (handlers w2) = tail (handlers w1)
  /\ threshold Syslog w2 = (if dev_log P then Some INFO else None)
  /\ forall self_ v,
       let w3 := run_call P ([self_], Some (VInt v)) w2 in
       threshold Console w3 = Some (40 - Z.min 3 v * 10)
       /\ sinks w3 = sinks w2
       /\ tail (handlers w3) = tail (handlers w2).
Proof.
  intros Hw Hret w1 w2.
  assert (exists lvl, handlers w1 = installed P lvl) as [lvl H1].
  { destruct (get_logger_installs P c0 w Hw) as [E|E]; [|exact E].
    exfalso. unfold run_call in E.
    destruct (get_logger_cases P (fst c0) (snd c0) w) as [[m Em]|[s [v Ev]]].
    - rewrite Em in Hret. discriminate.
    - rewrite Ev in Hret, E. rewrite (get_logger_body_first P s v w Hw) in Hret, E.
      destruct (if is_none v then _ else _); [discriminate E|discriminate Hret]. }
  assert (handlers w1 <> []) as Hne1 by (by rewrite H1).
  destruct (run_calls_keep_sinks P cs w1 Hne1) as [Hs Ht]. fold w2 in Hs, Ht.
  assert (sinks w1 = Console :: (if dev_log P then [Syslog] else [])) as Hs1.
  { unfold sinks. rewrite H1. unfold installed. by destruct (dev_log P). }
  assert (exists h, handlers w2 = h :: tail (installed P lvl) /\ h_sink h = Console)
    as [h [H2 Hh]].
  { unfold sinks in Hs. rewrite H1 in Ht, Hs.
    destruct (handlers w2) as [|h hs]; [discriminate Hs|].
    simpl in Ht. subst hs. exists h. split; [done|].
    simpl in Hs. congruence. }
  repeat split.
  - exact Hs1.
  - exact Hs.
  - rewrite H2. unfold installed. destruct (dev_log P); simpl; lia.
  - exact Ht.
  - rewrite (threshold_syslog_tail w2 h _ H2 Hh). unfold installed.
    by destruct (dev_log P).
  - unfold run_call, get_logger, bind, lift. simpl.
    rewrite (get_logger_body_later P self_ (VInt v) h _ w2 H2). simpl.
    unfold threshold. simpl. by rewrite Hh.
  - apply get_logger_keeps_sinks. by rewrite H2.
  - apply get_logger_keeps_sinks. by rewrite H2.
Qed.

Lemma get_logger_never_adds_a_sink_witness :
  handlers fresh = []
  /\ fst (get_logger Demo.host [VInstance] None fresh) = Return VLogger
  /\ sinks (run_calls Demo.host
              [([VInt 2], None); ([], None); ([VInstance], Some (VInt 3))]
              (run_call Demo.host ([VInstance], None) fresh))
     = [Console; Syslog].
Proof.
  split; [reflexivity|]. split; [reflexivity|].
  pose proof (get_logger_never_adds_a_sink Demo.host ([VInstance], None)
                [([VInt 2], None); ([], None); ([VInstance], Some (VInt 3))]
                fresh eq_refl eq_refl) as H.
  exact (eq_trans (proj1 (proj2 H)) (proj1 H)).
Defined.

(** C9 (what the code does). [main] calls [Operator.get_logger(verbose)] on
    the class; [get_logger] being a plain function, the count of [-v] flags
    is bound to [self] and [verbosity] keeps its default.  In a fresh process
    the console threshold is therefore 40 whatever the count, where the
    formula gives 30 already for one flag. *)
Theorem main_console_threshold_ignores_verbose (P : Platform) (k : Z) :
  bind_get_logger [VInt k] None = Return (VInt k, VNone)
  /\ threshold Console (snd (main P k fresh)) = Some 40
  /\ threshold Console (snd (main Demo.host 1 fresh)) = Some 40
  /\ 40 - Z.min 3 1 * 10 = 30.
Proof.
  repeat split.
  unfold main, call_get_logger, get_logger, bind, lift. simpl.
  rewrite (get_logger_body_first P (VInt k) VNone fresh eq_refl). simpl.
  unfold debug, log, effective_level. simpl. reflexivity.
Qed.

(** ** The process runner *)

Section Runner.

Variable P : Platform.

Lemma get_logger_on_class_no_argument (w : World) :
  call_get_logger P OnClass [] None w = (Raise missing_self, w).
Proof. reflexivity. Qed.

(** The first statement of the body of [shell] raises, before the command is
    logged, split or started. *)
Lemma shell_start_raises (g : generator) (w : World) :
  shell_start P g w = (Raise missing_self, w).
Proof. reflexivity. Qed.

Lemma gen_next_created (cmd : str) (fail : bool) (w : World) :
  gen_next P (shell cmd fail) w
  = (Raise missing_self, mkGen cmd fail Finished, w).
Proof. reflexivity. Qed.

Lemma for_lines_created {S R} (cmd : str) (fail : bool)
  (body : S -> str -> M (S + R)) (s : S) (w : World) :
  for_lines P (shell cmd fail) body s w = (Raise missing_self, w).
Proof. reflexivity. Qed.

(** The loop reads the generator for its command and its [fail] flag only. *)
Lemma for_pending_at_pc {S R} (g : generator) (pc : shell_pc) (logger : value)
  (code : Z) (body : S -> str -> M (S + R)) (s : S) (pending : list bytes)
  (w : World) :
  for_pending (at_pc g pc) logger code body s pending w
  = for_pending g logger code body s pending w.
Proof.
  revert s w. induction pending as [|lb rest IH]; intros s w; [reflexivity|].
  simpl. unfold bind. destruct (shell_line logger lb w) as [[line|e] w']; [|reflexivity].
  destruct (body s line w') as [[[s'|x]|e] w'']; [apply IH|reflexivity..].
Qed.

(** A [for] loop over a generator is a sequence of requests: one request,
    then the body on the line it gave, then the loop again. *)
Lemma for_lines_gen_next {S R} (g : generator)
  (body : S -> str -> M (S + R)) (s : S) (w : World) :
  for_lines P g body s w =
    match gen_next P g w with
    | (Return (Yield line), g', w') =>
      match body s line w' with
      | (Return (inl s'), w'') => for_lines P g' body s' w''
      | (Return (inr x), w'') => (Return (inr x), w'')
      | (Raise e, w'') => (Raise e, w'')
      end
    | (Return StopIteration, _, w') => (Return (inl s), w')
    | (Raise e, _, w') => (Raise e, w')
    end.
Proof.
  destruct g as [cmd fail [|logger pending code|]]; try reflexivity.
  unfold for_lines, gen_next. simpl.
  destruct pending as [|lb rest]; simpl.
  - unfold bind. destruct (shell_finish _ _ _ w) as [[[]|e] w']; reflexivity.
  - unfold bind. destruct (shell_line logger lb w) as [[line|e] w']; [|reflexivity].
    destruct (body s line w') as [[[s'|x]|e] w'']; try reflexivity.
    symmetry. apply (for_pending_at_pc (mkGen cmd fail _)).
Qed.

End Runner.

(** C1 (what the code does). Asking the sequence [shell] returns for its
    first element raises [TypeError], for every command and on every host:
    the body starts with [cls.get_logger()], which binds nothing to [self].
    No process is started and no line is yielded.  So it is for a command
    that prints [a], [b], [c] and exits with status 0. *)
Theorem shell_yields_no_line (P : Platform) (cmd : str) (fail : bool)
  (w : World) :
  list_of P (shell cmd fail) w = (Raise missing_self, w)
  /\ gen_next P (shell cmd fail) w
     = (Raise missing_self, mkGen cmd fail Finished, w)
  /\ popen Demo.host [u "abc"]
     = Return (u "a" ++ [10] ++ u "b" ++ [10] ++ u "c" ++ [10], 0)
  /\ list_of Demo.host (shell (u "abc") true) fresh = (Raise missing_self, fresh).
Proof. repeat split. Qed.

(** C2 (what the code does). For a command that exits with a non-zero
    status the exit policy is never reached: the first request raises
    [TypeError], whether [fail] is set or not; nothing is logged, no process
    is started, and the exception is not [SystemExit].  So it is for a
    command that exits with status 7. *)
Theorem shell_exit_policy_not_reached (P : Platform) (cmd : str) (fail : bool)
  (w : World) :
  fst (fst (gen_next P (shell cmd fail) w)) = Raise missing_self
  /\ journal (snd (gen_next P (shell cmd fail) w)) = journal w
  /\ spawned (snd (gen_next P (shell cmd fail) w)) = spawned w
  /\ popen Demo.host [u "seven"] = Return (u "x" ++ [10] ++ u "y" ++ [10], 7)
  /\ list_of Demo.host (shell (u "seven") true) fresh = (Raise missing_self, fresh)
  /\ list_of Demo.host (shell (u "seven") false) fresh = (Raise missing_self, fresh).
Proof. repeat split. Qed.

(** ** The body of [shell] from the point where the process runs

    What lines 184-193 do for a generator that holds a logger and a started
    process. *)

Section Body.

Variable P : Platform.

Lemma shell_line_logged (line_bytes : bytes) (line : str) (w : World) :
  logger_level w = DEBUG ->
  _utf8ify line_bytes = Return line ->
  shell_line VLogger line_bytes w
  = (Return line, with_journal (journal w ++ [line_record w line]) w).
Proof.
  intros Hl Hd. unfold shell_line, bind, lift. rewrite Hd. simpl.
  unfold log, effective_level. rewrite Hl. reflexivity.
Qed.

Lemma log_lines_cons (line : str) (lines : list str) (w : World) :
  log_lines lines (with_journal (journal w ++ [line_record w line]) w)
  = log_lines (line :: lines) w.
Proof.
  unfold log_lines, with_journal. simpl. f_equal.
  rewrite <- app_assoc. reflexivity.
Qed.

(** Running the loop to its end collects the lines in order, logs each of
    them, and then applies the exit policy. *)
Lemma for_pending_collect (g : generator) (code : Z) (pending : list bytes)
  (lines acc : list str) (w : World) :
  logger_level w = DEBUG ->
  decoded pending lines ->
  for_pending (R := Empty_set) g VLogger code
    (fun acc line => ret (inl (acc ++ [line]))) acc pending w
  = match shell_finish g VLogger code (log_lines lines w) with
    | (Return _, w') => (Return (inl (acc ++ lines)), w')
    | (Raise e, w') => (Raise e, w')
    end.
Proof.
  intros Hl Hd. revert acc w Hl.
  induction Hd as [|lb line pending lines Hlb Hd IH]; intros acc w Hl.
  - simpl. unfold bind, log_lines. rewrite !app_nil_r.
    replace (with_journal (journal w) w) with w by (by destruct w).
    destruct (shell_finish g VLogger code w) as [[[]|e] w']; reflexivity.
  - simpl. unfold bind at 1. rewrite (shell_line_logged lb line w Hl Hlb).
    unfold bind at 1. unfold ret at 1.
    rewrite IH by exact Hl. rewrite log_lines_cons.
    rewrite <- app_assoc. reflexivity.
Qed.

(** [list(g)] for a generator whose process runs: all the lines when the
    status is 0; all the lines and a WARNING record citing status and command
    when it is not and [fail] is off; an ERROR record citing the command and
    [SystemExit] with the status when [fail] is on. *)
Lemma list_of_reading (cmd : str) (fail : bool) (code : Z)
  (pending : list bytes) (lines : list str) (w : World) :
  logger_level w = DEBUG ->
  decoded pending lines ->
  list_of P (mkGen cmd fail (Reading VLogger pending code)) w =
    if code =? 0 then (Return lines, log_lines lines w)
    else if fail then
      (Raise (SystemExit code),
       with_journal
         (journal (log_lines lines w) ++
          [{| r_level := ERROR; r_msg := MText (u "Command errored: " ++ cmd);
              r_sinks := listeners ERROR w |}])
         (log_lines lines w))
    else
      (Return lines,
       with_journal
         (journal (log_lines lines w) ++
          [{| r_level := WARNING;
              r_msg := MText (u "Command returned " ++ str_of_int code
                              ++ u ": " ++ cmd);
              r_sinks := listeners WARNING w |}])
         (log_lines lines w)).
Proof.
  intros Hl Hd. unfold list_of, for_lines. simpl. unfold bind at 1.
  rewrite (for_pending_collect _ code pending lines [] w Hl Hd).
  unfold shell_finish. simpl.
  destruct (code =? 0) eqn:Hc; simpl.
  - rewrite andb_false_r. reflexivity.
  - rewrite andb_true_r. destruct fail; simpl.
    + unfold bind, error, log, effective_level, raise. simpl. rewrite Hl. reflexivity.
    + unfold warning, log, effective_level. simpl. rewrite Hl. reflexivity.
Qed.

(** The loop of [_determine_runtime] over a generator whose process runs
    (started with [fail] off): it returns the name as soon as a line ends with
    the suffix and is not a symbolic link, and falls through otherwise,
    whatever the status of the process. *)
Lemma which_scan (g : generator) (code : Z) (suffix name : str)
  (pending : list bytes) (lines : list str) (w : World) :
  g_fail g = false ->
  logger_level w = DEBUG ->
  decoded pending lines ->
  fst (for_pending g VLogger code (which_line P suffix name) tt pending w)
  = if existsb (fun line => endswith line suffix && negb (islink P line)) lines
    then Return (inr name) else Return (inl tt).
Proof.
  intros Hf Hl Hd. revert w Hl.
  induction Hd as [|lb line pending lines Hlb Hd IH]; intros w Hl.
  - simpl. unfold bind, shell_finish. rewrite Hf. simpl.
    destruct (code =? 0); simpl; [reflexivity|].
    unfold warning, log, effective_level. rewrite Hl. reflexivity.
  - simpl. unfold bind at 1. rewrite (shell_line_logged lb line w Hl Hlb).
    unfold bind at 1, which_line at 1.
    destruct (endswith line suffix && negb (islink P line)); simpl.
    + reflexivity.
    + apply IH. exact Hl.
Qed.

End Body.

Example reading_abc :
  let w := run_call Demo.host ([VInstance], None) fresh in
  let g := mkGen (u "abc") true
             (Reading VLogger (readlines (u "a" ++ [10] ++ u "b" ++ [10] ++ u "c" ++ [10])) 0) in
  fst (list_of Demo.host g w) = Return [u "a"; u "b"; u "c"].
Proof. reflexivity. Qed.

Example reading_podman :
  let w := run_call Demo.host ([VInstance], None) fresh in
  let g := mkGen (u "which podman") false
             (Reading VLogger (readlines (u "/usr/bin/podman" ++ [10])) 0) in
  fst (for_lines Demo.host g (which_line Demo.host (u "/podman") (u "podman")) tt w)
  = Return (inr (u "podman")).
Proof. reflexivity. Qed.








Example shell_emits_lines_on_request_running :
  let w := run_call Demo.host ([VInstance], None) fresh in
  let g := mkGen (u "abc") true
             (Reading VLogger [u "a" ++ [10]; u "b" ++ [10]; [255; 10]] 0) in
  fst (fst (take_lines 2 Demo.host g w)) = [u "a"; u "b"]
  /\ journal (snd (take_lines 2 Demo.host g w))
     = [line_record w (u "a"); line_record w (u "b")].
Proof. repeat split. Qed.

(** ** Runtime detection and the loader *)

(** C4 (what the code does). [_determine_runtime] raises [TypeError] on
    every host: its first loop asks [shell("which docker", fail=False)] for a
    line, and that request raises.  It returns neither ["docker"] nor
    ["podman"], also where [which podman] prints the path of a regular
    file. *)
Theorem determine_runtime_raises (P : Platform) (w : World) :
  _determine_runtime P w = (Raise missing_self, w)
  /\ popen Demo.host [u "which"; u "podman"]
     = Return (u "/usr/bin/podman" ++ [10], 0)
  /\ islink Demo.host (u "/usr/bin/podman") = false
  /\ _determine_runtime Demo.host fresh = (Raise missing_self, fresh).
Proof. repeat split. Qed.

(** Lines 155-162 on a document that sets [image] only: [foo] for the image,
    [None] for every other key. *)
Lemma load_args_image_only :
  load_args {[ u "image" := VStr (u "foo") ]}
  = {| a_image := VStr (u "foo"); a_version := VNone; a_channels := VNone;
       a_kinds := VNone; a_default_sample := VNone; a_domain := VNone;
       a_group := VNone; a_api_version := VNone;
       a_initialized := VBool false; a_verbosity := VNone |}.
Proof. reflexivity. Qed.

(** C8 (what the code does). [load] raises [TypeError] for every file on
    every host, before the file is opened: its first statement is
    [cls.get_logger()].  So it is for a document that sets [image: foo]
    only. *)
Theorem load_raises (P : Platform) (file : str) (w : World) :
  load P file w = (Raise missing_self, w)
  /\ safe_load Demo.host (u "operate.yml")
     = Return {[ u "image" := VStr (u "foo") ]}
  /\ load Demo.host (u "operate.yml") fresh = (Raise missing_self, fresh).
Proof. repeat split. Qed.

(** ** The settings object *)

Section Settings.

Variable P : Platform.

Lemma getattr_world (name : string) (w : World) : snd (getattr name w) = w.
Proof. unfold getattr. by destruct (self w !! name). Qed.

(** The comprehension reads attributes and builds generators; it changes
    nothing, and every generator it builds is still [Created]. *)
Lemma create_api_generators_world (kinds : list str) (w : World) :
  snd (create_api_generators P kinds w) = w.
Proof.
  induction kinds as [|kind rest IH]; [reflexivity|].
  simpl. unfold bind, getattr.
  destruct (self w !! "group"); [|reflexivity].
  destruct (self w !! "version"); [|reflexivity].
  destruct (create_api_generators P rest w) as [[gs|e] w']; simpl in *; congruence.
Qed.

Lemma create_api_generators_created (kinds : list str) (w : World)
  (gs : list generator) :
  fst (create_api_generators P kinds w) = Return gs ->
  Forall (fun g => g_pc g = Created) gs /\ length gs = length kinds.
Proof.
  revert gs. induction kinds as [|kind rest IH]; intros gs; simpl.
  - intros [= <-]. by split.
  - unfold bind, getattr.
    destruct (self w !! "group"); [|discriminate].
    destruct (self w !! "version"); [|discriminate].
    destruct (create_api_generators P rest w) as [[gs'|e] w']; [|discriminate].
    simpl. intros [= <-]. destruct (IH gs' eq_refl) as [HF HL].
    split; [by constructor|simpl; congruence].
Qed.

Lemma initialize_operator_generators_world (w : World) :
  snd (initialize_operator_generators P w) = w.
Proof.
  unfold initialize_operator_generators, bind, getattr, lift.
  destruct (self w !! "initialized") as [i|]; [|reflexivity].
  destruct (truthy i); [reflexivity|].
  destruct (self w !! "domain"); [|reflexivity].
  destruct (self w !! "kinds") as [k|]; [|reflexivity].
  destruct (py_iter k) as [ks|e]; [|reflexivity].
  pose proof (create_api_generators_world ks w) as H.
  destruct (create_api_generators P ks w) as [[gs|e] w']; simpl in *; congruence.
Qed.

(** [initialize_operator] changes nothing but the attribute [initialized]. *)
Lemma initialize_operator_world (w : World) :
  snd (initialize_operator P w) = w
  \/ snd (initialize_operator P w)
     = with_self (<["initialized" := VBool true]> (self w)) w.
Proof.
  unfold initialize_operator, bind.
  pose proof (initialize_operator_generators_world w) as H.
  destruct (initialize_operator_generators P w) as [[[gs|]|e] w'];
    simpl in *; subst w'; auto.
Qed.

(** With [initialized] true the method returns at once and changes
    nothing. *)
Lemma initialize_operator_noop (v : value) (w : World) :
  self w !! "initialized" = Some v ->
  truthy v = true ->
  initialize_operator P w = (Return tt, w).
Proof.
  intros Hi Ht.
  unfold initialize_operator, initialize_operator_generators, bind, getattr.
  by rewrite Hi, Ht.
Qed.

(** [__init__] assigns the eight settings and then raises, in the runtime
    detection: the attributes [runtime] and [logger] are never assigned. *)
Lemma init_raises (a : init_args) (w : World) :
  __init__ P a w
  = (Raise missing_self,
     with_self
       (<["api_version" := a_api_version a]>
        (<["group" := a_group a]>
         (<["domain" := a_domain a]>
          (<["default_sample" := a_default_sample a]>
           (<["kinds" := a_kinds a]>
            (<["channels" := a_channels a]>
             (<["version" := a_version a]>
              (<["image" := a_image a]> (self w))))))))) w).
Proof. reflexivity. Qed.

Lemma init_keeps_initialized (a : init_args) (w : World) :
  self (snd (__init__ P a w)) !! "initialized" = self w !! "initialized".
Proof. rewrite init_raises. simpl. by rewrite !lookup_insert_ne. Qed.

Lemma new_no_initialized (a : init_args) (w : World) :
  self (snd (new P a w)) !! "initialized" = None.
Proof.
  unfold new, bind, modify. rewrite init_raises. simpl.
  by rewrite !lookup_insert_ne.
Qed.

End Settings.

(** C3 (what the code does). [initialize_operator] starts no process and
    logs nothing, in any state of the instance: the calls of [shell] give
    generators that are dropped without being asked for an element.  On a
    project that is not initialised it formats the [init] command and one
    [create api] command for the kind, builds a generator for each, leaves
    them [Created], sets [initialized] and returns. *)
Theorem initialize_operator_starts_no_process (P : Platform) (w : World) :
  spawned (snd (initialize_operator P w)) = spawned w
  /\ journal (snd (initialize_operator P w)) = journal w
  /\ fst (initialize_operator_generators Demo.host memcached_project)
     = Return (Some
         [mkGen (u "operator-sdk init --plugins=ansible --domain=example.com")
            true Created;
          mkGen (u "operator-sdk create api --group=cache --version=0.0.1 --kind=Memcached")
            true Created])
  /\ fst (initialize_operator Demo.host memcached_project) = Return tt
  /\ spawned (snd (initialize_operator Demo.host memcached_project)) = []
  /\ self (snd (initialize_operator Demo.host memcached_project)) !! "initialized"
     = Some (VBool true).
Proof.
  destruct (initialize_operator_world P w) as [-> | ->];
    repeat split; reflexivity.
Qed.

(** C10. [__init__] never assigns [initialized]: whatever the argument,
    the attribute is after [__init__] what it was before, and an instance
    made by the class (as [load] makes it, too) has none.  Reading it raises
    [AttributeError]: so does [initialize_operator], at its first statement.
    [__repr__] raises [AttributeError] as well, already at [self.sample],
    which is not assigned either; with [sample] assigned by hand it raises
    at [self.initialized]. *)
Theorem initialized_is_never_assigned (P : Platform) (a : init_args)
  (w : World) :
  self (snd (__init__ P a w)) !! "initialized" = self w !! "initialized"
  /\ self (snd (new P a w)) !! "initialized" = None
  /\ (forall settings,
        self (snd (new P (load_args settings) w)) !! "initialized" = None)
  /\ fst (getattr "initialized" (snd (new P a w)))
     = Raise (AttributeError "initialized")
  /\ fst (initialize_operator P (snd (new P a w)))
     = Raise (AttributeError "initialized")
  /\ fst (__repr__ P (snd (new P a w))) = Raise (AttributeError "sample")
  /\ forall v,
       fst (__repr__ P (snd (setattr "sample" v (snd (new P a w)))))
       = Raise (AttributeError "initialized").
Proof.
  pose proof (new_no_initialized P a w) as Hnew.
  split; [apply init_keeps_initialized|].
  split; [exact Hnew|].
  split; [intros settings; apply new_no_initialized|].
  split; [unfold getattr; by rewrite Hnew|].
  split.
  { unfold initialize_operator, initialize_operator_generators, bind, getattr.
    by rewrite Hnew. }
  split; [reflexivity|].
  intros v. reflexivity.
Qed.

(** * Further properties *)

(** ** The logger, continued *)

Lemma get_logger_unfold (P : Platform) (args : list value) (kw : option value)
  (w : World) :
  get_logger P args kw w =
    match bind_get_logger args kw with
    | Return sv => get_logger_body P (fst sv) (snd sv) w
    | Raise e => (Raise e, w)
    end.
Proof.
  unfold get_logger, bind, lift. by destruct (bind_get_logger args kw).
Qed.

Lemma with_logger_level_idem (l : Z) (w : World) :
  with_logger_level l (with_logger_level l w) = with_logger_level l w.
Proof. reflexivity. Qed.

Lemma get_logger_body_idem (P : Platform) (s v : value) (w : World) :
  snd (get_logger_body P s v (snd (get_logger_body P s v w)))
  = snd (get_logger_body P s v w).
Proof.
  destruct (handlers w) as [|h hs] eqn:Hw.
  - rewrite (get_logger_body_first P s v w Hw).
    destruct (is_none v) eqn:Hn.
    + simpl. erewrite get_logger_body_later by reflexivity. by rewrite Hn.
    + destruct (as_int v) as [n|] eqn:Hi; simpl.
      * erewrite get_logger_body_later by reflexivity. by rewrite Hn, Hi.
      * rewrite get_logger_body_first by exact Hw. by rewrite Hn, Hi.
  - rewrite (get_logger_body_later P s v h hs w Hw).
    destruct (is_none v) eqn:Hn.
    + simpl. erewrite get_logger_body_later by exact Hw. by rewrite Hn.
    + destruct (as_int v) as [n|] eqn:Hi; simpl.
      * erewrite get_logger_body_later by reflexivity. by rewrite Hn, Hi.
      * erewrite get_logger_body_later by exact Hw. by rewrite Hn, Hi.
Qed.

(** X1. Provisioning is idempotent: the same call of [get_logger], made
    twice in a row, leaves the logger as the first call left it, whatever the
    arguments and whatever the state before. *)
Theorem get_logger_idempotent (P : Platform) (c : call) (w : World) :
  run_call P c (run_call P c w) = run_call P c w.
Proof.
  unfold run_call. rewrite !get_logger_unfold.
  destruct (bind_get_logger (fst c) (snd c)) as [[s v]|e]; [|reflexivity].
  apply get_logger_body_idem.
Qed.

Lemma run_call_invariant (P : Platform) (c : call) (w : World) :
  handlers w = [] \/ (exists lvl, handlers w = installed P lvl) ->
  handlers (run_call P c w) = []
  \/ (exists lvl, handlers (run_call P c w) = installed P lvl).
Proof.
  intros [Hw|[lvl Hw]]; [by apply get_logger_installs|].
  unfold run_call. rewrite get_logger_unfold.
  destruct (bind_get_logger (fst c) (snd c)) as [[s v]|e]; [|right; eauto].
  simpl. unfold installed in Hw.
  rewrite (get_logger_body_later P s v _ _ w Hw).
  destruct (is_none v); simpl; [right; exists lvl; exact Hw|].
  destruct (as_int v) as [n|]; simpl; right; eauto.
Qed.

(** X2. Whatever calls of [get_logger] are made in a process, including
    calls that raise, the logger has either no handler or exactly the console
    handler followed by the system-log handler at INFO when [/dev/log]
    exists: never a console handler alone on a host with [/dev/log], never a
    second console handler. *)
Theorem get_logger_reachable_handlers (P : Platform) (cs : list call)
  (w : World) :
  handlers w = [] ->
  handlers (run_calls P cs w) = []
  \/ (exists lvl, handlers (run_calls P cs w) = installed P lvl).
Proof.
  intros Hw.
  assert (handlers w = [] \/ (exists lvl, handlers w = installed P lvl)) as H
    by (by left).
  clear Hw. revert w H. induction cs as [|c cs IH]; intros w H; [exact H|].
  simpl. apply IH. by apply run_call_invariant.
Qed.

Lemma get_logger_reachable_handlers_witness :
  handlers fresh = []
  /\ (handlers (run_calls Demo.host
                  [([], None); ([VInstance], Some (VStr (u "loud")));
                   ([VInt 2], None); ([VInstance; VInt 7], None)] fresh) = []
      \/ exists lvl,
           handlers (run_calls Demo.host
                       [([], None); ([VInstance], Some (VStr (u "loud")));
                        ([VInt 2], None); ([VInstance; VInt 7], None)] fresh)
           = installed Demo.host lvl).
Proof.
  split; [reflexivity|].
  exact (get_logger_reachable_handlers Demo.host _ fresh eq_refl).
Defined.

Lemma get_logger_first_int (P : Platform) (s : value) (v : Z) (w : World) :
  handlers w = [] ->
  get_logger P [s] (Some (VInt v)) w
  = (Return VLogger,
     with_handlers (installed P (40 - Z.min 3 v * 10))
       (with_logger_level DEBUG w)).
Proof.
  intros Hw. rewrite get_logger_unfold. simpl.
  by rewrite (get_logger_body_first P s (VInt v) w Hw).
Qed.

(** X3. The console threshold a first call sets is never below DEBUG,
    whatever the integer given as verbosity; a negative verbosity puts it
    above ERROR, so that ERROR records are no longer written to the
    console. *)
Theorem get_logger_threshold_bounds (P : Platform) (s : value) (v : Z)
  (w : World) :
  handlers w = [] ->
  let w' := snd (get_logger P [s] (Some (VInt v)) w) in
  (exists t, threshold Console w' = Some t /\ DEBUG <= t)
  /\ (v < 0 ->
      threshold Console w' = Some (40 - v * 10)
      /\ ~ In Console (listeners ERROR w')).
Proof.
  intros Hw w'. subst w'. rewrite (get_logger_first_int P s v w Hw).
  unfold threshold, listeners, installed. simpl. split.
  - eexists. split; [reflexivity|]. unfold DEBUG. lia.
  - intros Hv. rewrite Z.min_r by lia. split; [reflexivity|].
    destruct (Z.leb_spec (40 - v * 10) ERROR) as [H|H];
      [unfold ERROR in H; lia|].
    destruct (dev_log P); simpl; [|tauto].
    intros [E|[]]. discriminate E.
Qed.

Lemma get_logger_threshold_bounds_witness :
  handlers fresh = []
  /\ exists t,
       threshold Console
         (snd (get_logger Demo.host [VInstance] (Some (VInt (-2))) fresh))
       = Some t /\ DEBUG <= t.
Proof.
  split; [reflexivity|].
  exact (proj1 (get_logger_threshold_bounds Demo.host VInstance (-2) fresh
                  eq_refl)).
Defined.

(** X4. After a first call with verbosity [v], a record of level [lvl] is
    written to the console exactly when [lvl] reaches [40 - min(3, v) * 10],
    and to the system log exactly when [/dev/log] exists and [lvl] reaches
    INFO: the verbosity never changes what the system log receives. *)
Theorem get_logger_routing (P : Platform) (s : value) (v lvl : Z)
  (w : World) :
  handlers w = [] ->
  listeners lvl (snd (get_logger P [s] (Some (VInt v)) w))
  = (if 40 - Z.min 3 v * 10 <=? lvl then [Console] else [])
    ++ (if dev_log P && (INFO <=? lvl) then [Syslog] else []).
Proof.
  intros Hw. rewrite (get_logger_first_int P s v w Hw).
  unfold listeners, installed. simpl.
  destruct (40 - Z.min 3 v * 10 <=? lvl); destruct (dev_log P); simpl;
    try reflexivity; destruct (INFO <=? lvl); reflexivity.
Qed.

Lemma get_logger_routing_witness :
  handlers fresh = []
  /\ listeners WARNING
       (snd (get_logger Demo.host [VInstance] (Some (VInt 0)) fresh))
     = [Syslog].
Proof.
  split; [reflexivity|].
  exact (get_logger_routing Demo.host VInstance 0 WARNING fresh eq_refl).
Defined.

(** X5. When [get_logger] returns, it returns the logger, the logger's own
    level is DEBUG, and the logger itself drops no record of level DEBUG or
    above: what is written is decided by the handlers alone. *)
Theorem get_logger_accepts_from_debug (P : Platform) (args : list value)
  (kw : option value) (l : value) (w : World) :
  fst (get_logger P args kw w) = Return l ->
  let w' := snd (get_logger P args kw w) in
  l = VLogger
  /\ logger_level w' = DEBUG
  /\ forall lvl m,
       DEBUG <= lvl ->
       log lvl m w'
       = (Return tt,
          with_journal
            (journal w' ++
             [{| r_level := lvl; r_msg := m; r_sinks := listeners lvl w' |}])
            w').
Proof.
  intros Hret w'. subst w'. rewrite get_logger_unfold in *.
  destruct (bind_get_logger args kw) as [[s v]|e]; [|discriminate]. simpl in *.
  assert (l = VLogger
          /\ logger_level (snd (get_logger_body P s v w)) = DEBUG) as [Hl Hlev].
  { destruct (handlers w) as [|h hs] eqn:Hw.
    - rewrite (get_logger_body_first P s v w Hw) in *.
      destruct (if is_none v then _ else _); simpl in *; [|discriminate].
      split; [congruence|reflexivity].
    - rewrite (get_logger_body_later P s v h hs w Hw) in *.
      destruct (is_none v); simpl in *; [split; [congruence|reflexivity]|].
      destruct (as_int v); simpl in *; [|discriminate].
      split; [congruence|reflexivity]. }
  split; [exact Hl|]. split; [exact Hlev|].
  intros lvl m Hlvl. unfold log, effective_level. rewrite Hlev. simpl.
  destruct (Z.leb_spec DEBUG lvl) as [_|H]; [reflexivity|lia].
Qed.

Lemma get_logger_accepts_from_debug_witness :
  fst (get_logger Demo.host [VInt 1] None fresh) = Return VLogger
  /\ logger_level (snd (get_logger Demo.host [VInt 1] None fresh)) = DEBUG.
Proof.
  split; [reflexivity|].
  exact (proj1 (proj2 (get_logger_accepts_from_debug Demo.host [VInt 1] None
                         VLogger fresh eq_refl))).
Defined.

(** ** [main], continued *)

(** X6. [main] never raises, whatever the count of flags and the state of
    the process; it starts no process and leaves the instance alone; it
    installs the handlers with the console at 40 when there are none and
    leaves existing handlers as they are; and it logs two DEBUG records,
    [sys.argv] and the count.  In a fresh process no sink writes either
    record. *)
Theorem main_always_returns (P : Platform) (k : Z) (w : World) :
  let w1 := run_call P ([VInt k], None) w in
  fst (main P k w) = Return tt
  /\ handlers (snd (main P k w))
     = match handlers w with [] => installed P 40 | _ => handlers w end
  /\ spawned (snd (main P k w)) = spawned w
  /\ self (snd (main P k w)) = self w
  /\ journal (snd (main P k w))
     = journal w ++
       [{| r_level := DEBUG; r_msg := MArgv (argv P);
           r_sinks := listeners DEBUG w1 |};
        {| r_level := DEBUG; r_msg := MText (u "verbose: " ++ str_of_int k);
           r_sinks := listeners DEBUG w1 |}]
  /\ Forall (fun r => r_sinks r = []) (journal (snd (main P k fresh))).
Proof.
  intros w1. subst w1.
  assert (forall w0, main P k w0 =
            match get_logger_body P (VInt k) VNone w0 with
            | (Return logger, w') =>
              bind (debug logger (MArgv (argv P)))
                (fun _ => debug logger (MText (u "verbose: " ++ str_of_int k)))
                w'
            | (Raise e, w') => (Raise e, w')
            end) as Hmain by reflexivity.
  assert (Forall (fun r => r_sinks r = [])
            (journal (snd (main P k fresh)))) as Hfresh.
  { rewrite Hmain, (get_logger_body_first P _ VNone fresh eq_refl).
    simpl. unfold installed. destruct (dev_log P); repeat constructor. }
  unfold run_call. rewrite get_logger_unfold, Hmain. simpl.
  destruct (handlers w) as [|h hs] eqn:Hw.
  - rewrite (get_logger_body_first P _ VNone w Hw). simpl.
    unfold bind, log, effective_level. simpl. rewrite <- app_assoc.
    repeat split; try reflexivity. exact Hfresh.
  - rewrite (get_logger_body_later P _ VNone h hs w Hw). simpl.
    unfold bind, log, effective_level. simpl. rewrite <- app_assoc.
    repeat split; try reflexivity; [by rewrite Hw|exact Hfresh].
Qed.

(** ** Lines of output *)

Lemma readlines_concat (bs : bytes) : concat (readlines bs) = bs.
Proof.
  induction bs as [|b bs IH]; [reflexivity|]. simpl.
  destruct (b =? 10); simpl; [by rewrite IH|].
  destruct (readlines bs) as [|l ls]; simpl in *; by rewrite <- IH.
Qed.

Lemma readlines_shape (bs : bytes) :
  exists full tail,
    readlines bs
    = map (fun body => body ++ [10]) full
      ++ match tail with [] => [] | _ => [tail] end
    /\ Forall (fun body => ~ In 10 body) full
    /\ ~ In 10 tail.
Proof.
  induction bs as [|b bs (full & tail & Hr & Hf & Ht)].
  - exists [], []. simpl. repeat split; [constructor|tauto].
  - simpl. destruct (Z.eqb_spec b 10) as [->|Hb].
    + exists ([] :: full), tail. rewrite Hr. simpl.
      repeat split; [constructor; [tauto|exact Hf]|exact Ht].
    + rewrite Hr. destruct full as [|f fs]; simpl.
      * destruct tail as [|t ts]; simpl.
        -- exists [], [b]. simpl. repeat split; [constructor|intros [E|[]]; lia].
        -- exists [], (b :: t :: ts). simpl.
           repeat split; [constructor|]. intros [E|H]; [lia|by apply Ht].
      * exists ((b :: f) :: fs), tail. simpl.
        inversion Hf as [|? ? Hf1 Hf2]; subst.
        repeat split; [|exact Ht].
        constructor; [|exact Hf2]. intros [E|H]; [lia|by apply Hf1].
Qed.

(** X7. Reading the output line by line loses and invents nothing: the lines
    read, put end to end, are the bytes the process wrote.  Every line is a
    run of bytes without newline followed by one newline, except that the
    last may lack the newline; in particular no line is empty, so the
    end-of-file sentinel [b''] never cuts the output short. *)
Theorem readlines_partition (bs : bytes) :
  concat (readlines bs) = bs
  /\ Forall (fun l => l <> []) (readlines bs)
  /\ exists full tail,
       readlines bs
       = map (fun body => body ++ [10]) full
         ++ match tail with [] => [] | _ => [tail] end
       /\ Forall (fun body => ~ In 10 body) full
       /\ ~ In 10 tail.
Proof.
  split; [apply readlines_concat|]. split; [|apply readlines_shape].
  destruct (readlines_shape bs) as (full & tail & -> & _ & _).
  apply Forall_app. split.
  - apply Forall_forall. intros l Hl. apply list_elem_of_In, in_map_iff in Hl.
    destruct Hl as (body & <- & _). by destruct body.
  - destruct tail; by repeat constructor.
Qed.

(** ** [_utf8ify], continued *)

Lemma lstrip_spec (s : str) :
  exists ws,
    s = ws ++ lstrip s
    /\ Forall (fun c => isspace c = true) ws
    /\ forall c rest, lstrip s = c :: rest -> isspace c = false.
Proof.
  induction s as [|c s (ws & Hs & Hws & Hl)].
  - exists []. simpl. repeat split; [constructor|discriminate].
  - simpl. destruct (isspace c) eqn:Hc.
    + exists (c :: ws). simpl. repeat split; [congruence|by constructor|exact Hl].
    + exists []. simpl. repeat split; [constructor|].
      intros c' rest [= <- <-]. exact Hc.
Qed.

Lemma rstrip_spec (s : str) :
  exists ws,
    s = rstrip s ++ ws
    /\ Forall (fun c => isspace c = true) ws
    /\ forall c, last (rstrip s) = Some c -> isspace c = false.
Proof.
  destruct (lstrip_spec (rev s)) as (ws & Hs & Hws & Hl).
  exists (rev ws). unfold rstrip. repeat split.
  - rewrite <- rev_app_distr, <- Hs. by rewrite rev_involutive.
  - by apply List.Forall_rev.
  - intros c Hc. destruct (lstrip (rev s)) as [|c' rest] eqn:E;
      [discriminate Hc|].
    simpl in Hc. rewrite last_snoc in Hc. injection Hc as <-.
    by eapply Hl.
Qed.

(** X8. [_utf8ify] removes white space from the end and nothing else: its
    result followed by a run of white space is the decoded text, and the
    result does not end in white space. *)
Theorem utf8ify_strips_the_end (line_bytes : bytes) (line : str) :
  _utf8ify line_bytes = Return line ->
  exists ws,
    decode_utf8 line_bytes = Some (line ++ ws)
    /\ Forall (fun c => isspace c = true) ws
    /\ forall c, last line = Some c -> isspace c = false.
Proof.
  unfold _utf8ify. destruct (decode_utf8 line_bytes) as [s|]; [|discriminate].
  intros [= <-]. destruct (rstrip_spec s) as (ws & Hs & Hws & Hl).
  exists ws. repeat split; [congruence|exact Hws|exact Hl].
Qed.

Lemma utf8ify_strips_the_end_witness :
  _utf8ify (u "b  " ++ [9; 13; 10]) = Return (u "b")
  /\ exists ws,
       decode_utf8 (u "b  " ++ [9; 13; 10]) = Some (u "b" ++ ws)
       /\ Forall (fun c => isspace c = true) ws
       /\ forall c, last (u "b") = Some c -> isspace c = false.
Proof.
  split; [reflexivity|].
  exact (utf8ify_strips_the_end (u "b  " ++ [9; 13; 10]) (u "b") eq_refl).
Defined.

Lemma decode_utf8_ascii (s : str) :
  Forall (fun c => 0 <= c <= 127) s -> decode_utf8 s = Some s.
Proof.
  induction 1 as [|c s Hc _ IH]; [reflexivity|]. simpl.
  unfold between. destruct (Z.leb_spec 0 c); [|lia].
  destruct (Z.leb_spec c 127); [|lia]. simpl. by rewrite IH.
Qed.

(** X9. An ASCII line that does not end in white space comes back as it was
    written: the bytes of the text followed by a newline decode to the
    text. *)
Theorem utf8ify_ascii_line (s : str) :
  Forall (fun c => 0 <= c <= 127) s ->
  (forall c, last s = Some c -> isspace c = false) ->
  _utf8ify (s ++ [10]) = Return s.
Proof.
  intros Hs Hlast. unfold _utf8ify.
  rewrite decode_utf8_ascii
    by (apply Forall_app; split; [exact Hs|repeat constructor; lia]).
  f_equal. unfold rstrip. rewrite rev_app_distr. simpl.
  destruct (rev s) as [|c rest] eqn:E; [|simpl].
  - apply (f_equal (@rev Z)) in E. rewrite rev_involutive in E. by subst.
  - assert (last s = Some c) as Hc.
    { apply (f_equal (@rev Z)) in E. rewrite rev_involutive in E. subst s.
      simpl. apply last_snoc. }
    rewrite (Hlast c Hc). rewrite <- E. apply rev_involutive.
Qed.

Lemma utf8ify_ascii_line_witness :
  Forall (fun c => 0 <= c <= 127) (u "/usr/bin/docker")
  /\ (forall c, last (u "/usr/bin/docker") = Some c -> isspace c = false)
  /\ _utf8ify (u "/usr/bin/docker" ++ [10]) = Return (u "/usr/bin/docker").
Proof.
  assert (Forall (fun c => 0 <= c <= 127) (u "/usr/bin/docker")) as H1.
  { repeat constructor; discriminate. }
  assert (forall c, last (u "/usr/bin/docker") = Some c -> isspace c = false)
    as H2.
  { intros c [= <-]. reflexivity. }
  split; [exact H1|]. split; [exact H2|].
  exact (utf8ify_ascii_line (u "/usr/bin/docker") H1 H2).
Defined.

(** ** What decodes *)

Ltac to_props :=
  repeat match goal with
  | H : _ && _ = true |- _ => apply andb_prop in H; destruct H
  | H : _ || _ = true |- _ => apply orb_prop in H; destruct H
  | H : between _ _ _ = true |- _ => unfold between in H
  | H : cont _ = true |- _ => unfold cont, between in H
  | H : (_ <=? _) = true |- _ => apply Z.leb_le in H
  | H : (_ =? _) = true |- _ => apply Z.eqb_eq in H
  end.

Lemma decode_utf8_sound (n : nat) :
  forall (bs : bytes) (s : str),
    (length bs <= n)%nat ->
    decode_utf8 bs = Some s ->
    Forall (fun b => ~ never_in_utf8 b) bs /\ Forall scalar_value s.
Proof.
  induction n as [|n IH]; intros bs s Hn Hd.
  { destruct bs; [|simpl in Hn; lia]. injection Hd as <-. split; constructor. }
  destruct bs as [|b0 r0].
  { injection Hd as <-. split; constructor. }
  simpl in Hn. cbn [decode_utf8] in Hd.
  destruct (between 0 127 b0) eqn:H0.
  { apply fmap_Some in Hd as (s' & Hs' & ->).
    destruct (IH r0 s' ltac:(lia) Hs') as [Hb Hc]. to_props.
    split; constructor; trivial; unfold never_in_utf8, scalar_value; lia. }
  destruct r0 as [|b1 r1]; [discriminate|]. simpl in Hn.
  destruct (between 194 223 b0 && cont b1) eqn:H1.
  { apply fmap_Some in Hd as (s' & Hs' & ->).
    destruct (IH r1 s' ltac:(lia) Hs') as [Hb Hc]. to_props.
    split; repeat constructor; trivial; unfold never_in_utf8, scalar_value; lia. }
  destruct r1 as [|b2 r2]; [discriminate|]. simpl in Hn.
  match type of Hd with (if ?c then _ else _) = _ => destruct c eqn:H2 end.
  { apply fmap_Some in Hd as (s' & Hs' & ->).
    destruct (IH r2 s' ltac:(lia) Hs') as [Hb Hc]. to_props;
    (split; repeat constructor; trivial; unfold never_in_utf8, scalar_value; lia). }
  destruct r2 as [|b3 r3]; [discriminate|]. simpl in Hn.
  match type of Hd with (if ?c then _ else _) = _ => destruct c eqn:H3 end;
    [|discriminate].
  apply fmap_Some in Hd as (s' & Hs' & ->).
  destruct (IH r3 s' ltac:(lia) Hs') as [Hb Hc]. to_props;
  (split; repeat constructor; trivial; unfold never_in_utf8, scalar_value; lia).
Qed.

(** X10. A line that holds a byte which occurs in no UTF-8 text (0xC0, 0xC1,
    0xF5 and above) is not decoded: [_utf8ify] raises [UnicodeDecodeError],
    wherever in the line the byte stands. *)
Theorem utf8ify_rejects_invalid_byte (line_bytes : bytes) (b : Z) :
  In b line_bytes ->
  never_in_utf8 b ->
  _utf8ify line_bytes = Raise UnicodeDecodeError.
Proof.
  intros Hin Hb. unfold _utf8ify.
  destruct (decode_utf8 line_bytes) as [s|] eqn:Hd; [|reflexivity].
  destruct (decode_utf8_sound _ _ _ (le_n _) Hd) as [Hbs _].
  rewrite Forall_forall in Hbs. exfalso.
  apply (Hbs b); [by apply list_elem_of_In|exact Hb].
Qed.

Lemma utf8ify_rejects_invalid_byte_witness :
  In 255 (u "ok" ++ [255; 10])
  /\ never_in_utf8 255
  /\ _utf8ify (u "ok" ++ [255; 10]) = Raise UnicodeDecodeError.
Proof.
  assert (In 255 (u "ok" ++ [255; 10])) as H1
    by (right; right; left; reflexivity).
  assert (never_in_utf8 255) as H2.
  { right; right; right. discriminate. }
  split; [exact H1|]. split; [exact H2|].
  exact (utf8ify_rejects_invalid_byte (u "ok" ++ [255; 10]) 255 H1 H2).
Defined.

Lemma utf8ify_decoded (line_bytes : bytes) (line : str) :
  _utf8ify line_bytes = Return line ->
  exists ws, decode_utf8 line_bytes = Some (line ++ ws).
Proof.
  unfold _utf8ify. destruct (decode_utf8 line_bytes) as [s|]; [|discriminate].
  intros [= <-]. destruct (rstrip_spec s) as (ws & Hs & _). exists ws. congruence.
Qed.

(** X11. Every line [_utf8ify] returns is a sequence of Unicode scalar
    values: code points between 0 and U+10FFFF that are not surrogates. *)
Theorem utf8ify_gives_scalar_values (line_bytes : bytes) (line : str) :
  _utf8ify line_bytes = Return line ->
  Forall scalar_value line.
Proof.
  intros H. destruct (utf8ify_decoded line_bytes line H) as [ws Hd].
  destruct (decode_utf8_sound _ _ _ (le_n _) Hd) as [_ Hs].
  apply Forall_app in Hs. tauto.
Qed.

Lemma utf8ify_gives_scalar_values_witness :
  _utf8ify [226; 130; 172; 32; 10] = Return [8364]
  /\ Forall scalar_value [8364].
Proof.
  split; [reflexivity|].
  exact (utf8ify_gives_scalar_values [226; 130; 172; 32; 10] [8364] eq_refl).
Defined.

(** ** The generator, continued *)

(** X12. The exit policy, for a generator whose process runs and whose
    lines decode: [list(g)] gives all the lines when the status is 0 or
    [fail] is off, and raises [SystemExit] with the status otherwise; every
    line is logged, in order, and after them an ERROR record citing the
    command ([fail] on) or a WARNING record citing status and command
    ([fail] off) when the status is not 0, and nothing when it is 0. *)
Theorem shell_exit_policy (P : Platform) (cmd : str) (fail : bool) (code : Z)
  (pending : list bytes) (lines : list str) (w : World) :
  logger_level w = DEBUG ->
  decoded pending lines ->
  let r := list_of P (mkGen cmd fail (Reading VLogger pending code)) w in
  fst r = (if (code =? 0) || negb fail then Return lines
           else Raise (SystemExit code))
  /\ journal (snd r)
     = journal w ++ map (line_record w) lines
       ++ (if code =? 0 then []
           else if fail then
             [{| r_level := ERROR;
                 r_msg := MText (u "Command errored: " ++ cmd);
                 r_sinks := listeners ERROR w |}]
           else
             [{| r_level := WARNING;
                 r_msg := MText (u "Command returned " ++ str_of_int code
                                 ++ u ": " ++ cmd);
                 r_sinks := listeners WARNING w |}]).
Proof.
  intros Hl Hd r. subst r. rewrite (list_of_reading P _ _ _ _ _ _ Hl Hd).
  destruct (code =? 0); simpl; [by rewrite app_nil_r|].
  destruct fail; simpl; by rewrite <- app_assoc.
Qed.

Lemma shell_exit_policy_witness :
  let w := run_call Demo.host ([VInstance], None) fresh in
  let pending := [u "x" ++ [10]; u "y" ++ [10]] in
  logger_level w = DEBUG
  /\ decoded pending [u "x"; u "y"]
  /\ fst (list_of Demo.host (mkGen (u "seven") true (Reading VLogger pending 7)) w)
     = Raise (SystemExit 7).
Proof.
  intros w pending.
  assert (decoded pending [u "x"; u "y"]) as Hd by (repeat constructor).
  split; [reflexivity|]. split; [exact Hd|].
  exact (proj1 (shell_exit_policy Demo.host (u "seven") true 7 pending
                  [u "x"; u "y"] w eq_refl Hd)).
Defined.

Lemma log_returns (lvl : Z) (m : message) (w : World) :
  fst (log lvl m w) = Return tt.
Proof. unfold log. by destruct (effective_level w <=? lvl). Qed.

Lemma which_scan_first_decisive (P : Platform) (g : generator) (code : Z)
  (suffix name : str) (pending : list bytes) :
  g_fail g = false ->
  forall w,
    fst (for_pending g VLogger code (which_line P suffix name) tt pending w)
    = match List.find (decisive P suffix) pending with
      | None => Return (inl tt)
      | Some line_bytes =>
        match _utf8ify line_bytes with
        | Return _ => Return (inr name)
        | Raise _ => Raise UnicodeDecodeError
        end
      end.
Proof.
  intros Hf. induction pending as [|lb rest IH]; intros w.
  - simpl. unfold bind, shell_finish. rewrite Hf. simpl.
    destruct (code =? 0); simpl; [reflexivity|].
    pose proof (log_returns WARNING
                  (MText (u "Command returned " ++ str_of_int code ++ u ": "
                          ++ g_cmd g)) w) as Hlog.
    destruct (log WARNING _ w) as [[[]|e] w']; simpl in Hlog;
      [reflexivity|discriminate Hlog].
  - cbn [for_pending List.find]. unfold decisive at 1.
    unfold bind at 1, shell_line, bind at 1, lift.
    destruct (_utf8ify lb) as [line|e] eqn:Hd.
    + unfold bind at 1, debug.
      pose proof (log_returns DEBUG (MText (u "Line:    " ++ line)) w) as Hlog.
      destruct (log DEBUG _ w) as [[[]|e] w']; simpl in Hlog;
        [|discriminate Hlog].
      unfold ret at 1, bind at 1, which_line at 1, accepts.
      destruct (endswith line suffix && negb (islink P line)).
      * rewrite Hd. reflexivity.
      * apply IH.
    + rewrite Hd. unfold _utf8ify in Hd.
      destruct (decode_utf8 lb); [discriminate Hd|]. by injection Hd as <-.
Qed.

(** X13. The loop of [_determine_runtime] over a running [which] (started
    with [fail] off) is decided by the first line of output that either does
    not decode or decodes to a line that ends with the suffix and is not a
    symbolic link: on a line of the second kind it returns the name of the
    runtime, on a line of the first kind it raises [UnicodeDecodeError];
    when there is no such line it falls through without raising.  The status
    [which] exits with plays no part. *)
Theorem determine_runtime_scan (P : Platform) (cmd : str) (code : Z)
  (suffix name : str) (pending : list bytes) (w : World) :
  fst (for_lines P (mkGen cmd false (Reading VLogger pending code))
         (which_line P suffix name) tt w)
  = match List.find (decisive P suffix) pending with
    | None => Return (inl tt)
    | Some line_bytes =>
      match _utf8ify line_bytes with
      | Return _ => Return (inr name)
      | Raise _ => Raise UnicodeDecodeError
      end
    end.
Proof.
  unfold for_lines. simpl. by apply which_scan_first_decisive.
Qed.

Example determine_runtime_scan_cases :
  let w := run_call Demo.host ([VInstance], None) fresh in
  let scan pending code :=
    fst (for_lines Demo.host
           (mkGen (u "which podman") false (Reading VLogger pending code))
           (which_line Demo.host (u "/podman") (u "podman")) tt w) in
  scan [u "/opt/podman" ++ [10]; [255; 10]] 1 = Return (inr (u "podman"))
  /\ scan [[255; 10]; u "/opt/podman" ++ [10]] 0 = Raise UnicodeDecodeError
  /\ scan [u "which: no podman in (/usr/bin)" ++ [10]] 1 = Return (inl tt)
  /\ scan [] 1 = Return (inl tt).
Proof. repeat split. Qed.

Lemma log_frame (lvl : Z) (m : message) (w : World) :
  let w' := snd (log lvl m w) in
  handlers w' = handlers w /\ logger_level w' = logger_level w
  /\ spawned w' = spawned w /\ self w' = self w
  /\ exists rs, journal w' = journal w ++ rs.
Proof.
  unfold log. destruct (effective_level w <=? lvl); simpl;
    repeat split; eauto. exists []. by rewrite app_nil_r.
Qed.

Lemma frame_refl (w : World) :
  handlers w = handlers w /\ logger_level w = logger_level w
  /\ spawned w = spawned w /\ self w = self w
  /\ exists rs, journal w = journal w ++ rs.
Proof. repeat split. exists []. by rewrite app_nil_r. Qed.

(** X14. A request on a generator of [shell], in whatever state, touches
    neither the handlers nor the level of the logger, nor the instance; it
    starts no process, and the journal only grows. *)
Theorem gen_next_frame (P : Platform) (g : generator) (w : World) :
  let w' := snd (gen_next P g w) in
  handlers w' = handlers w /\ logger_level w' = logger_level w
  /\ spawned w' = spawned w /\ self w' = self w
  /\ exists rs, journal w' = journal w ++ rs.
Proof.
  destruct g as [cmd fail [|logger pending code|]];
    [apply frame_refl| |apply frame_refl].
  unfold gen_next, shell_resume. simpl. destruct pending as [|lb rest].
  - unfold shell_finish. simpl.
    destruct (fail && negb (code =? 0)).
    + unfold bind, error, raise.
      destruct logger; simpl; try apply frame_refl.
      pose proof (log_frame ERROR (MText (u "Command errored: " ++ cmd)) w) as H.
      destruct (log ERROR _ w) as [[[]|e] w']; exact H.
    + destruct (negb (code =? 0)); [|apply frame_refl].
      unfold warning. destruct logger; simpl; try apply frame_refl.
      match goal with |- context [log ?l ?m w] =>
        pose proof (log_frame l m w) as H;
        destruct (log l m w) as [[[]|e] w'] end; exact H.
  - unfold shell_line, bind, lift.
    destruct (_utf8ify lb) as [line|e]; [|apply frame_refl].
    unfold debug. destruct logger; simpl; try apply frame_refl.
    match goal with |- context [log ?l ?m w] =>
      pose proof (log_frame l m w) as H;
      destruct (log l m w) as [[[]|e] w'] end; exact H.
Qed.

(** X15. The sequence is single-pass: a request that does not give a line
    (the end of the sequence, or an exception) leaves the generator
    finished, and every request on a finished generator reports the end of
    the sequence and changes nothing.  Iterating again never runs the
    command again. *)
Theorem gen_next_single_pass (P : Platform) (g : generator) (w : World) :
  match gen_next P g w with
  | (Return (Yield _), _, _) => True
  | (_, g', _) =>
    g_pc g' = Finished
    /\ forall w', gen_next P g' w' = (Return StopIteration, g', w')
  end.
Proof.
  destruct g as [cmd fail [|logger pending code|]]; simpl; [by split| |by split].
  unfold gen_next, shell_resume. simpl. destruct pending as [|lb rest].
  - destruct (shell_finish _ logger code w) as [[[]|e] w']; by split.
  - destruct (shell_line logger lb w) as [[line|e] w']; [exact I|by split].
Qed.

Lemma decode_utf8_invalid_byte (bs : bytes) (b : Z) :
  In b bs -> never_in_utf8 b -> decode_utf8 bs = None.
Proof.
  intros Hin Hb. destruct (decode_utf8 bs) as [s|] eqn:Hd; [|reflexivity].
  destruct (decode_utf8_sound _ _ _ (le_n _) Hd) as [Hbs _].
  rewrite Forall_forall in Hbs. exfalso.
  apply (Hbs b); [by apply list_elem_of_In|exact Hb].
Qed.

(** X16. A line that cannot be decoded ends the sequence: the request
    raises [UnicodeDecodeError], logs nothing, and leaves the generator
    finished; the lines after it are never read and the status of the
    process is never examined, so neither the ERROR record nor [exit]
    follow, even with [fail] on. *)
Theorem shell_stops_at_undecodable_line (P : Platform) (g : generator)
  (logger : value) (line_bytes : bytes) (rest : list bytes) (code : Z)
  (w : World) :
  g_pc g = Reading logger (line_bytes :: rest) code ->
  decode_utf8 line_bytes = None ->
  gen_next P g w = (Raise UnicodeDecodeError, at_pc g Finished, w)
  /\ gen_next P (at_pc g Finished) w
     = (Return StopIteration, at_pc g Finished, w).
Proof.
  intros Hpc Hd. split; [|reflexivity].
  unfold gen_next. rewrite Hpc. unfold shell_resume, shell_line, bind, lift,
    _utf8ify. by rewrite Hd.
Qed.

Lemma shell_stops_at_undecodable_line_witness :
  let g := mkGen (u "seven") true
             (Reading VLogger [[226; 130; 10]; u "y" ++ [10]] 7) in
  g_pc g = Reading VLogger [[226; 130; 10]; u "y" ++ [10]] 7
  /\ decode_utf8 [226; 130; 10] = None
  /\ gen_next Demo.host g fresh
     = (Raise UnicodeDecodeError, at_pc g Finished, fresh).
Proof.
  intros g. split; [reflexivity|]. split; [reflexivity|].
  exact (proj1 (shell_stops_at_undecodable_line Demo.host g VLogger
                  [226; 130; 10] [u "y" ++ [10]] 7 fresh eq_refl eq_refl)).
Defined.

Example undecodable_lines :
  decode_utf8 [128; 10] = None /\ decode_utf8 [226; 130; 10] = None
  /\ decode_utf8 [255; 10] = None.
Proof. repeat split. Qed.

(** ** The loader and the instance, continued *)

(** X17. [load] reads the eight keys it names and no other: adding or
    changing any other key of the document changes none of the arguments the
    class receives.  A document that spells [default_sample] with an
    underscore, or that sets [initialized], is read as if it did not. *)
Theorem load_args_ignores_other_keys (settings : gmap str value) (k : str)
  (v : value) :
  ~ In k recognised_keys ->
  load_args (<[k := v]> settings) = load_args settings.
Proof.
  intros Hk. unfold load_args, dict_get.
  rewrite !lookup_insert_ne; [reflexivity|..];
    intros ->; apply Hk; simpl; tauto.
Qed.

Lemma load_args_ignores_other_keys_witness :
  ~ In (u "default_sample") recognised_keys
  /\ load_args (<[u "default_sample" := VStr (u "cr.yml")]>
                  {[ u "image" := VStr (u "foo") ]})
     = load_args {[ u "image" := VStr (u "foo") ]}.
Proof.
  assert (~ In (u "default_sample") recognised_keys) as H.
  { simpl. intros [E|[E|[E|[E|[E|[E|[E|[E|[]]]]]]]]]; discriminate E. }
  split; [exact H|].
  exact (load_args_ignores_other_keys _ (u "default_sample") _ H).
Defined.

(** X18. What the class leaves behind: the instance has the eight settings
    attributes, holding the arguments, and no other attribute; [runtime] and
    [logger], which [__init__] assigns last, are never assigned, and reading
    them raises [AttributeError]. *)
Theorem new_leaves_eight_attributes (P : Platform) (a : init_args)
  (w : World) :
  let w' := snd (new P a w) in
  dom (self w')
  = list_to_set ["image"; "version"; "channels"; "kinds"; "default_sample";
                 "domain"; "group"; "api_version"]
  /\ Forall (fun nv => self w' !! fst nv = Some (snd nv))
       [("image", a_image a); ("version", a_version a);
        ("channels", a_channels a); ("kinds", a_kinds a);
        ("default_sample", a_default_sample a); ("domain", a_domain a);
        ("group", a_group a); ("api_version", a_api_version a)]
  /\ fst (getattr "runtime" w') = Raise (AttributeError "runtime")
  /\ fst (getattr "logger" w') = Raise (AttributeError "logger").
Proof.
  intros w'. subst w'. unfold new, bind, modify. rewrite init_raises. simpl.
  split; [|split; [repeat constructor|split; reflexivity]].
  rewrite !dom_insert_L, dom_empty_L. set_solver.
Qed.

(** X19. [__repr__] changes nothing, and it returns a string exactly when
    the nine attributes it reads are all assigned; otherwise it raises
    [AttributeError] for the first of them, in reading order, that is
    missing.  It reads [sample], not [default_sample]. *)
Theorem repr_needs_its_nine_attributes (P : Platform) (w : World) :
  snd (__repr__ P w) = w
  /\ match List.find (fun name => negb (has_attr w name)) repr_reads with
     | Some name => fst (__repr__ P w) = Raise (AttributeError name)
     | None => exists s, fst (__repr__ P w) = Return s
     end.
Proof.
  unfold __repr__, bind, getattr, repr_reads, has_attr. simpl.
  repeat match goal with
  | |- context [self w !! ?n] =>
    destruct (self w !! n); simpl; [|split; reflexivity]
  end.
  split; [reflexivity|]. eexists. reflexivity.
Qed.

Lemma create_api_generators_map (P : Platform) (group version : value)
  (kinds : list str) (w : World) :
  self w !! "group" = Some group ->
  self w !! "version" = Some version ->
  create_api_generators P kinds w
  = (Return (map (fun kind => shell (create_api_command P group version kind) true)
               kinds), w).
Proof.
  intros Hg Hv. induction kinds as [|kind rest IH]; [reflexivity|].
  simpl. unfold bind, getattr. by rewrite Hg, Hv, IH.
Qed.

(** X20. On an instance that is not initialised, [initialize_operator]
    builds the generator of the [init] command for the domain and then one
    generator of a [create api] command for each kind, in the order of
    [kinds], with the group and the attribute [version] (not [api_version])
    filled in; all of them with [fail] on. *)
Theorem initialize_operator_generators_in_order (P : Platform) (w : World)
  (i domain kinds group version : value) (ks : list str) :
  self w !! "initialized" = Some i ->
  truthy i = false ->
  self w !! "domain" = Some domain ->
  self w !! "kinds" = Some kinds ->
  py_iter kinds = Return ks ->
  self w !! "group" = Some group ->
  self w !! "version" = Some version ->
  initialize_operator_generators P w
  = (Return (Some
       (shell (init_command P domain) true
        :: map (fun kind => shell (create_api_command P group version kind) true)
             ks)), w).
Proof.
  intros Hi Ht Hd Hk Hks Hg Hv.
  unfold initialize_operator_generators, bind, getattr, lift.
  rewrite Hi, Ht, Hd, Hk, Hks.
  by rewrite (create_api_generators_map P group version ks w Hg Hv).
Qed.

Lemma initialize_operator_generators_in_order_witness :
  let w := with_self (<["kinds" := VSeq [u "B"; u "A"]]> (self memcached_project))
             memcached_project in
  self w !! "initialized" = Some (VBool false)
  /\ truthy (VBool false) = false
  /\ self w !! "domain" = Some (VStr (u "example.com"))
  /\ self w !! "kinds" = Some (VSeq [u "B"; u "A"])
  /\ py_iter (VSeq [u "B"; u "A"]) = Return [u "B"; u "A"]
  /\ self w !! "group" = Some (VStr (u "cache"))
  /\ self w !! "version" = Some (VStr (u "0.0.1"))
  /\ fst (initialize_operator_generators Demo.host w)
     = Return (Some
         [shell (u "operator-sdk init --plugins=ansible --domain=example.com") true;
          shell (u "operator-sdk create api --group=cache --version=0.0.1 --kind=B") true;
          shell (u "operator-sdk create api --group=cache --version=0.0.1 --kind=A") true]).
Proof.
  intros w. repeat (split; [reflexivity|]).
  exact (f_equal fst
           (initialize_operator_generators_in_order Demo.host w (VBool false)
              (VStr (u "example.com")) (VSeq [u "B"; u "A"])
              (VStr (u "cache")) (VStr (u "0.0.1")) [u "B"; u "A"]
              eq_refl eq_refl eq_refl eq_refl eq_refl eq_refl eq_refl)).
Defined.

Lemma initialize_operator_unfold (P : Platform) (w : World) :
  initialize_operator P w
  = match fst (initialize_operator_generators P w) with
    | Return None => (Return tt, w)
    | Return (Some _) =>
      (Return tt, with_self (<["initialized" := VBool true]> (self w)) w)
    | Raise e => (Raise e, w)
    end.
Proof.
  unfold initialize_operator, bind.
  pose proof (initialize_operator_generators_world P w) as H.
  destruct (initialize_operator_generators P w) as [[[gs|]|e] w'];
    simpl in *; by subst.
Qed.

Lemma initialize_operator_generators_none (P : Platform) (w : World) :
  fst (initialize_operator_generators P w) = Return None ->
  exists v, self w !! "initialized" = Some v /\ truthy v = true.
Proof.
  unfold initialize_operator_generators, bind, getattr, lift.
  destruct (self w !! "initialized") as [i|]; [|discriminate].
  destruct (truthy i) eqn:Ht; [eauto|].
  destruct (self w !! "domain"); [|discriminate].
  destruct (self w !! "kinds") as [k|]; [|discriminate].
  destruct (py_iter k) as [ks|e]; [|discriminate].
  destruct (create_api_generators P ks w) as [[gs|e] w']; discriminate.
Qed.

(** X21. Once [initialize_operator] has returned, [initialized] is set to a
    true value, no other attribute has changed, and a further call returns
    at once and changes nothing: the flag goes up and never comes down
    again. *)
Theorem initialize_operator_once (P : Platform) (w : World) :
  fst (initialize_operator P w) = Return tt ->
  let w' := snd (initialize_operator P w) in
  (exists v, self w' !! "initialized" = Some v /\ truthy v = true)
  /\ (forall name, name <> "initialized" -> self w' !! name = self w !! name)
  /\ initialize_operator P w' = (Return tt, w').
Proof.
  intros Hret w'. subst w'. rewrite initialize_operator_unfold in *.
  destruct (fst (initialize_operator_generators P w)) as [[gs|]|e] eqn:Hg;
    [| |discriminate]; simpl.
  - assert (self (with_self (<["initialized" := VBool true]> (self w)) w)
            !! "initialized" = Some (VBool true)) as Hi
      by (simpl; apply lookup_insert_eq).
    split; [eauto|]. split.
    + intros name Hn. by rewrite lookup_insert_ne.
    + by apply (initialize_operator_noop P (VBool true)).
  - destruct (initialize_operator_generators_none P w Hg) as (v & Hv & Ht).
    split; [eauto|]. split; [done|]. by apply (initialize_operator_noop P v).
Qed.

Lemma initialize_operator_once_witness :
  fst (initialize_operator Demo.host memcached_project) = Return tt
  /\ initialize_operator Demo.host
       (snd (initialize_operator Demo.host memcached_project))
     = (Return tt, snd (initialize_operator Demo.host memcached_project)).
Proof.
  split; [reflexivity|].
  exact (proj2 (proj2 (initialize_operator_once Demo.host memcached_project
                         eq_refl))).
Defined.

(** X22. When [initialize_operator] raises, it has changed nothing: in
    particular [initialized] is not set. *)
Theorem initialize_operator_failure_changes_nothing (P : Platform)
  (w : World) (e : exn) :
  fst (initialize_operator P w) = Raise e ->
  snd (initialize_operator P w) = w.
Proof.
  rewrite initialize_operator_unfold.
  by destruct (fst (initialize_operator_generators P w)) as [[gs|]|e'].
Qed.

Lemma initialize_operator_failure_changes_nothing_witness :
  fst (initialize_operator Demo.host fresh)
  = Raise (AttributeError "initialized")
  /\ snd (initialize_operator Demo.host fresh) = fresh.
Proof.
  split; [reflexivity|].
  exact (initialize_operator_failure_changes_nothing Demo.host fresh
           (AttributeError "initialized") eq_refl).
Defined.

(** X23. A settings document without [kinds] gives the class [None] for it,
    and on an instance whose [kinds] is [None] and that is not initialised,
    [initialize_operator] raises [TypeError] at the comprehension and leaves
    [initialized] as it was.  (The default [[]] of the signature is used only
    when the class is called without [kinds].) *)
Theorem initialize_operator_without_kinds (P : Platform)
  (settings : gmap str value) (i domain : value) (w : World) :
  settings !! u "kinds" = None ->
  self w !! "initialized" = Some i ->
  truthy i = false ->
  self w !! "domain" = Some domain ->
  self w !! "kinds" = Some (a_kinds (load_args settings)) ->
  a_kinds (load_args settings) = VNone
  /\ initialize_operator P w
     = (Raise (TypeError "'NoneType' object is not iterable"), w).
Proof.
  intros Hs Hi Ht Hd Hk.
  assert (a_kinds (load_args settings) = VNone) as Hnone.
  { unfold load_args, dict_get. simpl. by rewrite Hs. }
  split; [exact Hnone|]. rewrite Hnone in Hk.
  rewrite initialize_operator_unfold.
  unfold initialize_operator_generators, bind, getattr, lift.
  by rewrite Hi, Ht, Hd, Hk.
Qed.

Lemma initialize_operator_without_kinds_witness :
  let settings : gmap str value := {[ u "image" := VStr (u "foo") ]} in
  let w := with_self
             (<["kinds" := a_kinds (load_args settings)]> (self memcached_project))
             memcached_project in
  settings !! u "kinds" = None
  /\ self w !! "initialized" = Some (VBool false)
  /\ truthy (VBool false) = false
  /\ self w !! "domain" = Some (VStr (u "example.com"))
  /\ self w !! "kinds" = Some (a_kinds (load_args settings))
  /\ initialize_operator Demo.host w
     = (Raise (TypeError "'NoneType' object is not iterable"), w).
Proof.
  intros settings w. repeat (split; [reflexivity|]).
  exact (proj2 (initialize_operator_without_kinds Demo.host settings
                  (VBool false) (VStr (u "example.com")) w
                  eq_refl eq_refl eq_refl eq_refl eq_refl)).
Defined.

(** ** [_build_operator] *)

(** X24. Without a tag, [_build_operator] builds with the version: the call
    without [tag] does what the call with the value of [self.version] as tag
    does. *)
Theorem build_operator_default_tag (P : Platform) (v : value) (w : World) :
  self w !! "version" = Some v ->
  _build_operator P VNone w = _build_operator P v w.
Proof.
  intros Hv. unfold _build_operator, bind. simpl.
  destruct (is_none v) eqn:Hn.
  - destruct v; try discriminate Hn. reflexivity.
  - unfold getattr at 1. rewrite Hv. reflexivity.
Qed.

Lemma build_operator_default_tag_witness :
  let w := with_self (<["logger" := VLogger]>
                      (<["image" := VStr (u "quay.io/x/op")]>
                       (self memcached_project)))
             (run_call Demo.host ([VInstance], None) memcached_project) in
  self w !! "version" = Some (VStr (u "0.0.1"))
  /\ _build_operator Demo.host VNone w
     = _build_operator Demo.host (VStr (u "0.0.1")) w
  /\ map r_msg (journal (snd (_build_operator Demo.host VNone w)))
     = [MText (u "Building quay.io/x/op:0.0.1")].
Proof.
  intros w. split; [reflexivity|]. split; [|reflexivity].
  exact (build_operator_default_tag Demo.host (VStr (u "0.0.1")) w eq_refl).
Defined.

(** X25. On an instance as the class leaves it, [_build_operator] raises
    [AttributeError] for [logger], with or without a tag, and logs
    nothing. *)
Theorem build_operator_without_logger (P : Platform) (a : init_args)
  (tag : value) (w : World) :
  _build_operator P tag (snd (new P a w))
  = (Raise (AttributeError "logger"), snd (new P a w)).
Proof.
  unfold new, bind, modify. rewrite init_raises. simpl.
  unfold _build_operator, bind. destruct (is_none tag); reflexivity.
Qed.

(** ** The path of the SDK *)

Lemma endswith_last (s : str) (c : Z) :
  endswith s [c] = bool_decide (last s = Some c).
Proof.
  unfold endswith. apply bool_decide_ext.
  destruct s as [|d s _] using rev_ind; [done|].
  rewrite length_app, last_snoc. simpl.
  replace (length s + 1 - 1)%nat with (length s) by lia.
  rewrite drop_app_length. split; congruence.
Qed.

Lemma path_join_plain (a b : str) (c d : Z) (b' : str) :
  b = c :: b' -> c <> sep ->
  path_join a b
  = (if bool_decide (a = []) || endswith a [sep] then a else a ++ [sep]) ++ b.
Proof.
  intros -> Hc. unfold path_join, startswith. simpl.
  rewrite bool_decide_eq_false_2 by congruence.
  destruct (bool_decide (a = []) || endswith a [sep]); [done|].
  by rewrite <- app_assoc.
Qed.

Lemma path_join_after_name (a b : str) (c : Z) (b' : str) (x : Z) :
  b = c :: b' -> c <> sep -> x <> sep ->
  path_join (a ++ [x]) b = a ++ [x] ++ [sep] ++ b.
Proof.
  intros Hb Hc Hx. rewrite (path_join_plain _ b c 0 b' Hb Hc).
  rewrite endswith_last, last_snoc.
  rewrite bool_decide_eq_false_2 by (by destruct a).
  rewrite bool_decide_eq_false_2 by congruence.
  simpl. by rewrite <- !app_assoc.
Qed.

Lemma osdk_path_eq (home : str) :
  osdk_path home = home_prefix home ++ u ".local/bin/operator-sdk".
Proof.
  unfold osdk_path.
  rewrite (path_join_plain home (u ".local") 46 0 (u "local") eq_refl)
    by discriminate.
  fold (home_prefix home).
  change (u ".local") with (u ".loca" ++ [108]). rewrite app_assoc.
  rewrite (path_join_after_name _ (u "bin") 98 (u "in") 108 eq_refl)
    by discriminate.
  change ([108] ++ [sep] ++ u "bin") with ((u "l/bi") ++ [110]).
  rewrite !app_assoc.
  rewrite (path_join_after_name _ (u "operator-sdk") 111 (u "perator-sdk") 110
             eq_refl) by discriminate.
  rewrite <- !app_assoc. reflexivity.
Qed.

Lemma drop_to_sep_app (l r : str) :
  ~ In sep l -> drop_to_sep (l ++ sep :: r) = sep :: r.
Proof.
  induction l as [|c l IH]; intros Hl; simpl.
  - reflexivity.
  - destruct (Z.eqb_spec c sep) as [->|_]; [exfalso; apply Hl; by left|].
    apply IH. intros H. apply Hl. by right.
Qed.

(** [dirname] of a path that ends with a separator and a name: the path
    before that separator. *)
Lemma dirname_join (a name : str) (x : Z) :
  x <> sep -> ~ In sep name ->
  dirname (a ++ [x] ++ [sep] ++ name) = a ++ [x].
Proof.
  intros Hx Hname. unfold dirname.
  assert (rev (a ++ [x] ++ [sep] ++ name) = rev name ++ sep :: x :: rev a) as E.
  { rewrite !rev_app_distr. simpl. by rewrite <- !app_assoc. }
  rewrite E, drop_to_sep_app
    by (intros H; apply Hname; by apply in_rev).
  assert (rev (sep :: x :: rev a) = (a ++ [x]) ++ [sep]) as E'.
  { simpl. by rewrite rev_involutive. }
  rewrite E'. clear E E'.
  rewrite bool_decide_eq_false_2 by (by destruct a).
  rewrite !forallb_app. simpl.
  destruct (Z.eqb_spec x sep) as [|_]; [done|].
  rewrite !andb_false_r. simpl.
  rewrite !rev_app_distr. simpl.
  destruct (Z.eqb_spec x sep) as [|_]; [done|].
  simpl. by rewrite rev_involutive.
Qed.

(** X26. The directory handed to the updater is [$HOME/.local/bin], for
    every value of [$HOME]: [dirname] of the configured path of the SDK is
    [$HOME], a separator unless [$HOME] is empty or ends with one, and
    [.local/bin].  An empty [$HOME] gives the relative directory
    [.local/bin].  [_install_operator_sdk] passes this directory both as
    [directory] and as [path], calls the updater before it reads
    [self.logger], and logs the version the updater returns. *)
Theorem install_operator_sdk_directory (P : Platform) (home : str)
  (operator_sdk_update : str -> str -> value -> M value) (version : value) :
  dirname (osdk_path home)
  = (if bool_decide (home = []) || endswith home [sep] then home
     else home ++ [sep]) ++ u ".local/bin"
  /\ dirname (osdk_path []) = u ".local/bin"
  /\ _install_operator_sdk P home operator_sdk_update version
     = (installed_version <-
          operator_sdk_update (home_prefix home ++ u ".local/bin")
            (home_prefix home ++ u ".local/bin") version ;;
        logger <- getattr "logger" ;;
        info logger
          (MText (u "Operator SDK version " ++ py_str P installed_version
                  ++ u " installed"))).
Proof.
  assert (dirname (osdk_path home) = home_prefix home ++ u ".local/bin") as H.
  { rewrite osdk_path_eq.
    replace (home_prefix home ++ u ".local/bin/operator-sdk")
      with ((home_prefix home ++ u ".local/bi") ++ [110] ++ [sep]
            ++ u "operator-sdk")
      by (rewrite <- app_assoc; reflexivity).
    rewrite dirname_join.
    - rewrite <- app_assoc. reflexivity.
    - discriminate.
    - simpl. unfold sep. intros H.
      repeat (destruct H as [H|H]; [discriminate H|]). exact H. }
  split; [exact H|]. split; [reflexivity|].
  unfold _install_operator_sdk. by rewrite H.
Qed.

(** ** The constructor *)

(** X27. Calling the class always raises [TypeError], in the runtime
    detection, and has no effect outside the instance: the logger is not
    provisioned (so the [verbosity] argument is never applied), nothing is
    logged and no process is started.  The arguments [initialized] and
    [verbosity] make no difference to what the call does. *)
Theorem constructor_always_raises (P : Platform) (a a' : init_args)
  (w : World) :
  fst (new P a w) = Raise missing_self
  /\ handlers (snd (new P a w)) = handlers w
  /\ logger_level (snd (new P a w)) = logger_level w
  /\ journal (snd (new P a w)) = journal w
  /\ spawned (snd (new P a w)) = spawned w
  /\ new P a w
     = new P {| a_image := a_image a; a_version := a_version a;
                a_channels := a_channels a; a_kinds := a_kinds a;
                a_default_sample := a_default_sample a;
                a_domain := a_domain a; a_group := a_group a;
                a_api_version := a_api_version a;
                a_initialized := a_initialized a';
                a_verbosity := a_verbosity a' |} w.
Proof. repeat split. Qed.
